(** * CPU CeePos payment provider: checksum engine, payload builder,
      response and callback interpreters

    Shallow embedding of [payments/providers/cpu_ceepos.py].

    Conventions of the embedding.
    - A Python [str] is represented by the byte sequence of its UTF-8
      encoding, held in a Rocq [string]; [str.join] and concatenation commute
      with that encoding, so [string.encode("utf-8")] is the identity on the
      representation.
    - A Python exception is a value of [exn]; a call that may raise returns a
      [result].
    - A Python [dict] whose insertion order matters (the outbound payload and
      the entries of its product list) is an association list in insertion
      order; one that is only looked up (the decoded response body, Django's
      [QueryDict], the provider configuration, the order table) is a [gmap]. *)

From Stdlib Require Import ZArith List Ascii String Bool Lia.
From stdpp Require Import base option list strings gmap pretty.

Import ListNotations.
Local Open Scope Z_scope.
Local Open Scope string_scope.
Local Open Scope list_scope.

(** ** SHA-256 ([hashlib.sha256]), after FIPS 180-4 *)

Module SHA256.

(** 32-bit words are [Z] in [0, 2^32); addition wraps. *)
Definition wrap32 (x : Z) : Z := Z.land x 0xffffffff.
Definition add32 (x y : Z) : Z := wrap32 (x + y).

Definition ROTR (n x : Z) : Z :=
  Z.lor (Z.shiftr x n) (wrap32 (Z.shiftl x (32 - n))).
Definition SHR (n x : Z) : Z := Z.shiftr x n.
Definition lnot32 (x : Z) : Z := Z.lxor x 0xffffffff.

Definition Ch (x y z : Z) : Z := Z.lxor (Z.land x y) (Z.land (lnot32 x) z).
Definition Maj (x y z : Z) : Z :=
  Z.lxor (Z.lxor (Z.land x y) (Z.land x z)) (Z.land y z).
Definition Sigma0 (x : Z) : Z := Z.lxor (Z.lxor (ROTR 2 x) (ROTR 13 x)) (ROTR 22 x).
Definition Sigma1 (x : Z) : Z := Z.lxor (Z.lxor (ROTR 6 x) (ROTR 11 x)) (ROTR 25 x).
Definition sigma0 (x : Z) : Z := Z.lxor (Z.lxor (ROTR 7 x) (ROTR 18 x)) (SHR 3 x).
Definition sigma1 (x : Z) : Z := Z.lxor (Z.lxor (ROTR 17 x) (ROTR 19 x)) (SHR 10 x).

Definition K : list Z :=
  [ 0x428A2F98; 0x71374491; 0xB5C0FBCF; 0xE9B5DBA5;
    0x3956C25B; 0x59F111F1; 0x923F82A4; 0xAB1C5ED5;
    0xD807AA98; 0x12835B01; 0x243185BE; 0x550C7DC3;
    0x72BE5D74; 0x80DEB1FE; 0x9BDC06A7; 0xC19BF174;
    0xE49B69C1; 0xEFBE4786; 0x0FC19DC6; 0x240CA1CC;
    0x2DE92C6F; 0x4A7484AA; 0x5CB0A9DC; 0x76F988DA;
    0x983E5152; 0xA831C66D; 0xB00327C8; 0xBF597FC7;
    0xC6E00BF3; 0xD5A79147; 0x06CA6351; 0x14292967;
    0x27B70A85; 0x2E1B2138; 0x4D2C6DFC; 0x53380D13;
    0x650A7354; 0x766A0ABB; 0x81C2C92E; 0x92722C85;
    0xA2BFE8A1; 0xA81A664B; 0xC24B8B70; 0xC76C51A3;
    0xD192E819; 0xD6990624; 0xF40E3585; 0x106AA070;
    0x19A4C116; 0x1E376C08; 0x2748774C; 0x34B0BCB5;
    0x391C0CB3; 0x4ED8AA4A; 0x5B9CCA4F; 0x682E6FF3;
    0x748F82EE; 0x78A5636F; 0x84C87814; 0x8CC70208;
    0x90BEFFFA; 0xA4506CEB; 0xBEF9A3F7; 0xC67178F2 ].

(** Big-endian rendering of [x] on [n] bytes. *)
Fixpoint be_bytes (n : nat) (x : Z) : list Z :=
  match n with
  | O => []
  | S n' => Z.land (Z.shiftr x (8 * Z.of_nat n')) 0xff :: be_bytes n' x
  end.

(** Padding: the byte 0x80, then zero bytes up to 56 modulo 64, then the
    bit length on 8 bytes. *)
Definition pad (msg : list Z) : list Z :=
  let l := Z.of_nat (List.length msg) in
  msg ++ [0x80] ++ repeat 0 (Z.to_nat ((55 - l) mod 64)) ++ be_bytes 8 (8 * l).

Fixpoint words (bs : list Z) : list Z :=
  match bs with
  | b0 :: b1 :: b2 :: b3 :: rest =>
      (Z.shiftl b0 24 + Z.shiftl b1 16 + Z.shiftl b2 8 + b3) :: words rest
  | _ => []
  end.

(** The message schedule, most recent word first: [W(t-k)] is the element
    of index [k-1]. *)
Fixpoint schedule (n : nat) (rev_w : list Z) : list Z :=
  match n with
  | O => rev_w
  | S n' =>
      let wt := add32 (add32 (add32 (sigma1 (nth 1 rev_w 0)) (nth 6 rev_w 0))
                              (sigma0 (nth 14 rev_w 0)))
                      (nth 15 rev_w 0) in
      schedule n' (wt :: rev_w)
  end.

Definition W (block : list Z) : list Z := rev (schedule 48 (rev block)).

Record regs : Type := Regs { ra : Z; rb : Z; rc : Z; rd : Z;
                             re : Z; rf : Z; rg : Z; rh : Z }.

Definition round (s : regs) (kw : Z * Z) : regs :=
  let '(k, w) := kw in
  let T1 := add32 (add32 (add32 (add32 (rh s) (Sigma1 (re s)))
                                (Ch (re s) (rf s) (rg s))) k) w in
  let T2 := add32 (Sigma0 (ra s)) (Maj (ra s) (rb s) (rc s)) in
  Regs (add32 T1 T2) (ra s) (rb s) (rc s) (add32 (rd s) T1) (re s) (rf s) (rg s).

Definition compress (h : regs) (block : list Z) : regs :=
  let s := fold_left round (combine K (W block)) h in
  Regs (add32 (ra h) (ra s)) (add32 (rb h) (rb s))
       (add32 (rc h) (rc s)) (add32 (rd h) (rd s))
       (add32 (re h) (re s)) (add32 (rf h) (rf s))
       (add32 (rg h) (rg s)) (add32 (rh h) (rh s)).

Fixpoint blocks (fuel : nat) (ws : list Z) : list (list Z) :=
  match fuel, ws with
  | S fuel', _ :: _ => firstn 16 ws :: blocks fuel' (skipn 16 ws)
  | _, _ => []
  end.

(** The initial hash value H(0). *)
Definition initial : regs :=
  Regs 0x6a09e667 0xbb67ae85 0x3c6ef372 0xa54ff53a
       0x510e527f 0x9b05688c 0x1f83d9ab 0x5be0cd19.

Definition digest_words (msg : list Z) : list Z :=
  let ws := words (pad msg) in
  let s := fold_left compress (blocks (List.length ws) ws) initial in
  [ra s; rb s; rc s; rd s; re s; rf s; rg s; rh s].

Definition hex_chars : list ascii :=
  ["0"; "1"; "2"; "3"; "4"; "5"; "6"; "7";
   "8"; "9"; "a"; "b"; "c"; "d"; "e"; "f"]%char.

Definition hex_digit (n : Z) : ascii :=
  nth (Z.to_nat (Z.land n 0xf)) hex_chars "0"%char.

Definition hex_byte (b : Z) : list ascii :=
  [hex_digit (Z.shiftr b 4); hex_digit b].

Definition bytes_of_string (s : string) : list Z :=
  map (fun c => Z.of_N (N_of_ascii c)) (list_ascii_of_string s).

(** [hashlib.sha256(data).hexdigest()] *)
Definition hexdigest (data : string) : string :=
  string_of_list_ascii
    (flat_map hex_byte
       (flat_map (be_bytes 4) (digest_words (bytes_of_string data)))).

End SHA256.

(** ** Python values and exceptions *)

(** The scalar values that reach the provider: configuration entries, model
    fields, decoded JSON scalars and request parameters.  JSON floats and
    nested JSON containers are not represented. *)
Inductive pyval : Type :=
| VNone
| VBool (b : bool)
| VInt (z : Z)
| VStr (s : string).

Global Instance pyval_eq_dec : EqDecision pyval.
Proof. solve_decision. Defined.

(** [str(val)] *)
Definition str (val : pyval) : string :=
  match val with
  | VNone => "None"
  | VBool true => "True"
  | VBool false => "False"
  | VInt z => pretty z
  | VStr s => s
  end.

(** [val == n] for an integer literal [n]: a [bool] compares as 0 or 1, a
    [str] or [None] is never equal to an integer. *)
Definition py_eq_int (val : pyval) (n : Z) : bool :=
  match val with
  | VInt z => Z.eqb z n
  | VBool b => Z.eqb (if b then 1 else 0) n
  | _ => false
  end.

(** [val == s] for a string literal [s]. *)
Definition py_eq_str (val : pyval) (s : string) : bool :=
  match val with
  | VStr t => if decide (t = s) then true else false
  | _ => false
  end.

Inductive exn : Type :=
| KeyError
| TypeError
| ValueError
| RequestException
| DoesNotExist
| DuplicateOrderError
| OrderStateTransitionError
| PayloadValidationError
| PaymentCreationFailedError
| ServiceUnavailableError
| UnknownReturnCodeError.

Global Instance exn_eq_dec : EqDecision exn.
Proof. solve_decision. Defined.

Inductive result (A : Type) : Type :=
| Ok (a : A)
| Raise (e : exn).
Arguments Ok {A} a.
Arguments Raise {A} e.

Global Instance result_ret : MRet result := fun A a => Ok a.
Global Instance result_bind : MBind result := fun A B f m =>
  match m with
  | Ok a => f a
  | Raise e => Raise e
  end.

(** [d[key]] on a dict that is only looked up. *)
Definition getitem {V : Type} (d : gmap string V) (key : string) : result V :=
  match d !! key with
  | Some v => Ok v
  | None => Raise KeyError
  end.

(** [d.get(key)] with the default [None]. *)
Definition dict_get (d : gmap string pyval) (key : string) : pyval :=
  default VNone (d !! key).

(** ** Checksum engine *)

Definition is_ascii (s : string) : bool :=
  forallb (fun c => N.ltb (N_of_ascii c) 128) (list_ascii_of_string s).

(** [hmac.compare_digest(a, b)]: both arguments are [str] holding ASCII
    characters only, anything else is a [TypeError]. *)
Definition compare_digest (a b : pyval) : result bool :=
  match a, b with
  | VStr x, VStr y =>
      if is_ascii x && is_ascii y
      then Ok (if decide (x = y) then true else false)
      else Raise TypeError
  | _, _ => Raise TypeError
  end.

(** [calculate_checksum(param_values, secret)].  The first component is the
    returned digest; the second is the content of the caller's list object
    [param_values] when the call returns ([param_values.append(secret)]
    mutates it). *)
Definition calculate_checksum (param_values : list pyval) (secret : pyval)
  : string * list pyval :=
  let param_values := param_values ++ [secret] in
  let string := String.concat "&" (map str param_values) in
  (SHA256.hexdigest string, param_values).

(** The provider configuration, [self.config]. *)
Definition RESPA_PAYMENTS_CEEPOS_API_URL := "RESPA_PAYMENTS_CEEPOS_API_URL".
Definition RESPA_PAYMENTS_CEEPOS_API_KEY := "RESPA_PAYMENTS_CEEPOS_API_KEY".
Definition RESPA_PAYMENTS_CEEPOS_API_SECRET := "RESPA_PAYMENTS_CEEPOS_API_SECRET".

Definition REQUEST_CHECKSUM_PARAMS : list string :=
  ["Id"; "Status"; "Reference"; "PaymentMethod"; "PaymentSum"; "Timestamp";
   "PaymentDescription"].

Definition RESPONSE_CHECKSUM_PARAMS : list string :=
  ["Id"; "Status"; "Reference"; "Action"; "PaymentAddress"; "PaymentExpires"].

(** [[data[x] for x in params if x in data]] *)
Definition checksum_values (data : gmap string pyval) (params : list string)
  : list pyval :=
  omap (fun x => data !! x) params.

(** [_validate_payload(data, params)] *)
Definition _validate_payload (config : gmap string pyval)
    (data : gmap string pyval) (params : list string) : result bool :=
  checksum_received ← getitem data "Hash";
  let checksum_calc_values := checksum_values data params in
  let secret := dict_get config RESPA_PAYMENTS_CEEPOS_API_SECRET in
  let correct_checksum := fst (calculate_checksum checksum_calc_values secret) in
  ok ← compare_digest checksum_received (VStr correct_checksum);
  if negb ok then Ok false else Ok true.

(** [validate_ceepos_response(response)] *)
Definition validate_ceepos_response (config : gmap string pyval)
    (response : gmap string pyval) : result bool :=
  _validate_payload config response RESPONSE_CHECKSUM_PARAMS.

(** ** Models read by the provider *)

Inductive OrderState : Type := WAITING | CONFIRMED | REJECTED | EXPIRED.

Global Instance OrderState_eq_dec : EqDecision OrderState.
Proof. solve_decision. Defined.

(** A [decimal.Decimal]: the number [coefficient * 10 ^ exponent]. *)
Record Decimal : Type := { coefficient : Z; exponent : Z }.

(** [int(d * k)] for an integer [k]: the product is exact (the context
    precision of 28 digits is not reached by a tax rate) and [int] truncates
    towards zero. *)
Definition int_of_scaled (d : Decimal) (k : Z) : Z :=
  let c := coefficient d * k in
  if (0 <=? exponent d)%Z then c * 10 ^ exponent d
  else Z.quot c (10 ^ (- exponent d)).

Record Reservation : Type := {
  billing_email_address : pyval;
  billing_first_name : pyval;
  billing_last_name : pyval }.

Record Product : Type := {
  sku : string;
  name : string;
  tax_percentage : Decimal }.

Record Order : Type := {
  id : Z;
  order_number : string;
  state : OrderState;
  reservation : Reservation;
  log_entries : list string }.

Record OrderLine : Type := {
  ol_order : Z;          (* the id of the order the line belongs to *)
  product : Product;
  quantity : Z }.

(** ** Ordered dictionaries *)

(** [d[key] = value]: an existing key keeps its position, a new key goes
    last. *)
Fixpoint setitem {V : Type} (d : list (string * V)) (key : string) (value : V)
  : list (string * V) :=
  match d with
  | [] => [(key, value)]
  | (k, v) :: d' =>
      if decide (k = key) then (k, value) :: d'
      else (k, v) :: setitem d' key value
  end.

(** [d.update(other)] *)
Definition update {V : Type} (d other : list (string * V)) : list (string * V) :=
  fold_left (fun d kv => setitem d (fst kv) (snd kv)) other d.

(** A dict display [{k1: v1, k2: v2, ...}]. *)
Definition dict {V : Type} (entries : list (string * V)) : list (string * V) :=
  update [] entries.

(** [d.keys()] and [d.values()], in insertion order. *)
Definition keys {V : Type} (d : list (string * V)) : list string := map fst d.
Definition values {V : Type} (d : list (string * V)) : list V := map snd d.

(** A payload value is a scalar or a list of dicts (the product list). *)
Inductive payload_value : Type :=
| Scalar (v : pyval)
| Items (items : list (list (string * pyval))).

Definition Payload : Type := list (string * payload_value).

(** [get_product_taxcode(product)]; [if not taxcode] rejects a missing entry
    and an empty string. *)
Definition taxcode_table : gmap Z string :=
  {[ 24000000 := "24"; 14000000 := "14"; 10000000 := "10"; 0 := "0" ]}.

Definition get_product_taxcode (product : Product) : result string :=
  let tax := tax_percentage product in
  match taxcode_table !! int_of_scaled tax 1000000 with
  | Some taxcode => if decide (taxcode = EmptyString) then Raise ValueError else Ok taxcode
  | None => Raise ValueError
  end.

(** [payload_add_checksum(payload, secret)] *)
Definition checksum_calc_values (payload : Payload) : list pyval :=
  flat_map (fun kv =>
              match snd kv with
              | Items value => flat_map values value
              | Scalar value => [value]
              end) payload.

Definition payload_add_checksum (payload : Payload) (secret : pyval) : Payload :=
  setitem payload "Hash"
    (Scalar (VStr (fst (calculate_checksum (checksum_calc_values payload) secret)))).

(** ** Requests, responses and the world the provider acts on *)

(** A Django request: its method and the decoded query string and form
    body.  A [QueryDict] is represented by the value each key resolves to. *)
Record HttpRequest : Type := {
  method : string;
  GET : gmap string string;
  POST : gmap string string }.

(** What the entry points hand back to the web layer.  The two redirects
    come from the provider base class and are kept symbolic. *)
Inductive HttpResponse : Type :=
| HttpResponseStatus (status : Z)
| ui_redirect_success (order : Order)
| ui_redirect_failure (order : option Order).

(** What [requests.post] followed by decoding does: it raises a
    [RequestException] (connection failure, timeout), or a reply arrives
    with a status code and a JSON object as body. *)
Inductive post_outcome : Type :=
| Unreachable
| Replied (status_code : Z) (json : gmap string pyval).

(** The database tables and the log of outbound requests. *)
Record World : Type := {
  orders : gmap string Order;            (* by order number *)
  order_lines : list OrderLine;
  outbox : list (pyval * Payload) }.

Definition save (order : Order) (w : World) : World :=
  {| orders := <[order_number order := order]> (orders w);
     order_lines := order_lines w;
     outbox := outbox w |}.

Definition send (url : pyval) (payload : Payload) (w : World) : World :=
  {| orders := orders w;
     order_lines := order_lines w;
     outbox := outbox w ++ [(url, payload)] |}.

(** [Order.objects.get(order_number=...)]; [None] matches no order. *)
Definition Order_objects_get (w : World) (number : pyval) : result Order :=
  match number with
  | VStr s =>
      match orders w !! s with
      | Some order => Ok order
      | None => Raise DoesNotExist
      end
  | _ => Raise DoesNotExist
  end.

(** The order table is indexed by the unique order number. *)
Definition orders_keyed (w : World) : Prop :=
  map_Forall (fun number order => order_number order = number) (orders w).


(** [OrderLine.objects.filter(order=order_id)] *)
Definition OrderLine_objects_filter (w : World) (order_id : Z) : list OrderLine :=
  List.filter (fun l => Z.eqb (ol_order l) order_id) (order_lines w).

(** Modelled from the spec: [Order.set_state], the transition operation of
    the order model, which is not among the sources.  WAITING may move to
    CONFIRMED, REJECTED or EXPIRED; a request for the current state is
    accepted and changes nothing; every other request raises
    [OrderStateTransitionError] and changes nothing.  An applied transition
    records its audit note. *)
Definition set_state (order : Order) (new_state : OrderState)
    (log_message : string) : result Order :=
  if decide (new_state = state order) then Ok order
  else
    match state order with
    | WAITING =>
        Ok {| id := id order;
              order_number := order_number order;
              state := new_state;
              reservation := reservation order;
              log_entries := log_entries order ++ [log_message] |}
    | _ => Raise OrderStateTransitionError
    end.

(** Modelled from the spec: [Order.create_log_entry], which records an audit
    note on the order and is not among the sources. *)
Definition create_log_entry (order : Order) (message : string) : Order :=
  {| id := id order;
     order_number := order_number order;
     state := state order;
     reservation := reservation order;
     log_entries := log_entries order ++ [message] |}.

(** The provider instance: its configuration, the request it was created
    for, and the two callback URLs of the base class. *)
Record CPUCeeposProvider : Type := {
  config : gmap string pyval;
  request : HttpRequest;
  get_success_url : pyval;
  get_notify_url : pyval }.

Definition url_payment_api (self : CPUCeeposProvider) : pyval :=
  dict_get (config self) RESPA_PAYMENTS_CEEPOS_API_URL.

(** [validate_ceepos_request(request)] *)
Definition validate_ceepos_request (self : CPUCeeposProvider)
    (request : HttpRequest) : result bool :=
  let data := if decide (method request = "POST") then POST request
              else GET request in
  _validate_payload (config self) (VStr <$> data) REQUEST_CHECKSUM_PARAMS.

Ltac unfold_bind := unfold mbind, result_bind, mret, result_ret in *.

(** [handle_initiate_payment_response(response)] *)
Definition handle_initiate_payment_response (self : CPUCeeposProvider)
    (response : gmap string pyval) : result pyval :=
  status_code ← getitem response "Status";
  if py_eq_int status_code 2 then
    valid ← validate_ceepos_response (config self) response;
    if negb valid then Raise PayloadValidationError
    else getitem response "PaymentAddress"
  else if py_eq_int status_code 0 then Raise PaymentCreationFailedError
  else if py_eq_int status_code 97 then Raise DuplicateOrderError
  else if py_eq_int status_code 98 then Raise ServiceUnavailableError
  else if py_eq_int status_code 99 then Raise PayloadValidationError
  else Raise UnknownReturnCodeError.

Section Provider.

(** Collaborators outside the sources: the price of a product for a
    reservation, its conversion to minor currency units, and the
    processor reached through [requests.post]. *)
Variable get_price_for_reservation : Product -> Reservation -> Decimal.
Variable price_as_sub_units : Decimal -> Z.
Variable requests_post : pyval -> Payload -> post_outcome.

(** The entry of the product list built for one order line. *)
Definition product_item (reservation : Reservation) (order_line : OrderLine)
    (taxcode : string) : list (string * pyval) :=
  let product := product order_line in
  dict [("Code", VStr (sku product));
        ("Amount", VInt (quantity order_line));
        ("Price", VInt (price_as_sub_units
                          (get_price_for_reservation product reservation)));
        ("Description", VStr (name product));
        ("Taxcode", VStr taxcode)].

(** The loop of [payload_add_products]: [payload["Products"] = items] is
    in the loop body. *)
Fixpoint add_products_loop (reservation : Reservation)
    (order_lines : list OrderLine) (items : list (list (string * pyval)))
    (payload : Payload) : result Payload :=
  match order_lines with
  | [] => Ok payload
  | order_line :: rest =>
      taxcode ← get_product_taxcode (product order_line);
      let items := items ++ [product_item reservation order_line taxcode] in
      let payload := setitem payload "Products" (Items items) in
      add_products_loop reservation rest items payload
  end.

(** [payload_add_products(payload, order)] *)
Definition payload_add_products (payload : Payload) (order : Order)
    (w : World) : result Payload :=
  let reservation := reservation order in
  let order_lines := OrderLine_objects_filter w (id order) in
  add_products_loop reservation order_lines [] payload.

(** [payload_add_customer(payload, order)] *)
Definition payload_add_customer (payload : Payload) (order : Order) : Payload :=
  let reservation := reservation order in
  update payload
    (dict [("Email", Scalar (billing_email_address reservation));
           ("FirstName", Scalar (billing_first_name reservation));
           ("LastName", Scalar (billing_last_name reservation))]).

(** [payload_add_return_and_notification_urls(payload)] *)
Definition payload_add_return_and_notification_urls
    (self : CPUCeeposProvider) (payload : Payload) : Payload :=
  update payload
    (dict [("ReturnAddress", Scalar (get_success_url self));
           ("NotificationAddress", Scalar (get_notify_url self))]).

(** The payload [initiate_payment] has built when it reaches the [try]. *)
Definition build_payload (self : CPUCeeposProvider) (order : Order)
    (w : World) : result Payload :=
  let payload :=
    dict [("ApiVersion", Scalar (VStr "3.0.0"));
          ("Source", Scalar (dict_get (config self) RESPA_PAYMENTS_CEEPOS_API_KEY));
          ("Id", Scalar (VStr (str (VStr (order_number order)))));
          ("Mode", Scalar (VInt 3));
          ("Action", Scalar (VStr "new payment"))] in
  let secret := dict_get (config self) RESPA_PAYMENTS_CEEPOS_API_SECRET in
  payload ← payload_add_products payload order w;
  let payload := payload_add_customer payload order in
  let payload := payload_add_return_and_notification_urls self payload in
  Ok (payload_add_checksum payload secret).

(** [except RequestException as e: raise ServiceUnavailableError(...)] *)
Definition except_RequestException {A : Type} (r : result A) : result A :=
  match r with
  | Raise RequestException => Raise ServiceUnavailableError
  | _ => r
  end.

(** [r.raise_for_status()] *)
Definition raise_for_status (status_code : Z) : result unit :=
  if (400 <=? status_code)%Z && (status_code <? 600)%Z
  then Raise RequestException else Ok tt.

(** [initiate_payment(order)] *)
Definition initiate_payment (self : CPUCeeposProvider) (order : Order)
    (w : World) : result pyval * World :=
  match build_payload self order w with
  | Raise e => (Raise e, w)
  | Ok payload =>
      let w := send (url_payment_api self) payload w in
      (except_RequestException
         (match requests_post (url_payment_api self) payload with
          | Unreachable => Raise RequestException
          | Replied status_code json =>
              _ ← raise_for_status status_code;
              handle_initiate_payment_response self json
          end), w)
  end.

End Provider.

(** ** Callback handlers *)

(** [order.set_state(target, note)] under
    [try: ... except OrderStateTransitionError], as the handlers use it:
    [on_applied] and [on_refused] give the handler's result in either case;
    the refused branch of the user-return handler records the note. *)
Definition try_set_state {A : Type} (order : Order) (target : OrderState)
    (note : string) (w : World)
    (on_applied : Order -> World -> result A * World)
    (on_refused : World -> result A * World) : result A * World :=
  match set_state order target note with
  | Ok order' => on_applied order' (save order' w)
  | Raise OrderStateTransitionError => on_refused w
  | Raise e => (Raise e, w)
  end.

(** The double quote character, as a string. *)
Definition dquote : string := String (ascii_of_nat 34) EmptyString.

(** [handle_success_request()] *)
Definition handle_success_request (self : CPUCeeposProvider) (w : World)
  : result HttpResponse * World :=
  let request := request self in
  match validate_ceepos_request self request with
  | Raise e => (Raise e, w)
  | Ok false => (Ok (ui_redirect_failure None), w)
  | Ok true =>
      match getitem (GET request) "Id" with
      | Raise e => (Raise e, w)
      | Ok number =>
          match Order_objects_get w (VStr number) with
          | Raise DoesNotExist => (Ok (ui_redirect_failure None), w)
          | Raise e => (Raise e, w)
          | Ok order =>
              match getitem (GET request) "Status" with
              | Raise e => (Raise e, w)
              | Ok status_code =>
                  if decide (status_code = "1") then
                    try_set_state order CONFIRMED
                      "Code 1 (payment succeeded) in CeePos success request." w
                      (fun order w => (Ok (ui_redirect_success order), w))
                      (fun w =>
                         let order := create_log_entry order
                           "Code 1 (payment succeeded) in CeePos success request." in
                         (Ok (ui_redirect_failure (Some order)), save order w))
                  else if decide (status_code = "0") then
                    try_set_state order REJECTED
                      "Code 0 (payment failed) in CeePos success request." w
                      (fun order w => (Ok (ui_redirect_failure (Some order)), w))
                      (fun w =>
                         let order := create_log_entry order
                           "Code 0 (payment failed) in CeePos success request." in
                         (Ok (ui_redirect_failure (Some order)), save order w))
                  else if decide (status_code = "98") then
                    let order := create_log_entry order
                      "Code 98: CeePos system error" in
                    (Ok (ui_redirect_failure (Some order)), save order w)
                  else
                    let order := create_log_entry order
                      ("CeePos incorrect status code " +:+ dquote +:+ status_code
                       +:+ dquote +:+ ".") in
                    (Ok (ui_redirect_failure (Some order)), save order w)
              end
          end
      end
  end.

(** [handle_notify_request()] *)
Definition handle_notify_request (self : CPUCeeposProvider) (w : World)
  : result HttpResponse * World :=
  let request := request self in
  match validate_ceepos_request self request with
  | Raise e => (Raise e, w)
  | Ok false => (Ok (HttpResponseStatus 200), w)
  | Ok true =>
      match Order_objects_get w (default VNone (VStr <$> POST request !! "Id")) with
      | Raise DoesNotExist => (Ok (HttpResponseStatus 200), w)
      | Raise e => (Raise e, w)
      | Ok order =>
          let status_code := default VNone (VStr <$> POST request !! "Status") in
          if py_eq_str status_code "1" then
            try_set_state order CONFIRMED
              "Code 1 (payment succeeded) in CeePos notify request." w
              (fun _ w => (Ok (HttpResponseStatus 200), w))
              (fun w => (Ok (HttpResponseStatus 200), w))
          else if py_eq_str status_code "0" then
            try_set_state order REJECTED
              "Code 0 (payment failed) in CeePos notify request." w
              (fun _ w => (Ok (HttpResponseStatus 200), w))
              (fun w => (Ok (HttpResponseStatus 200), w))
          else if py_eq_str status_code "98" then
            (Ok (HttpResponseStatus 200), w)
          else
            (Ok (HttpResponseStatus 200), w)
      end
  end.

(** ** The checksum engine under the specification's names *)

(** The verification step of [_validate_payload], under the name the
    specification gives it: recompute over [values] and [secret], compare
    with [hmac.compare_digest]. *)
Definition verifyChecksum (receivedDigest : pyval) (values : list pyval)
    (secret : pyval) : result bool :=
  ok ← compare_digest receivedDigest (VStr (fst (calculate_checksum values secret)));
  if negb ok then Ok false else Ok true.

(** [d.get(key)] on an insertion-ordered dict. *)
Fixpoint lookup_key {V : Type} (d : list (string * V)) (key : string) : option V :=
  match d with
  | [] => None
  | (k, v) :: d' => if decide (k = key) then Some v else lookup_key d' key
  end.

(** The state an order is in after a transition to [target] was requested
    through the handlers' [try: order.set_state(...) except
    OrderStateTransitionError]: a WAITING order takes the target state,
    every other order keeps its state. *)
Definition settled (current target : OrderState) : OrderState :=
  if decide (current = WAITING) then target else current.

(** ** Fixtures: the configuration and data of the repository's tests *)

Definition test_config : gmap string pyval :=
  {[ RESPA_PAYMENTS_CEEPOS_API_URL := VStr "https://real-ceepos-api-url/maksu.html";
     RESPA_PAYMENTS_CEEPOS_API_KEY := VStr "dummy-key";
     RESPA_PAYMENTS_CEEPOS_API_SECRET := VStr "123" ]}.

Definition test_request (method : string) (params : gmap string string)
  : HttpRequest :=
  {| method := method;
     GET := if decide (method = "GET") then params else ∅;
     POST := if decide (method = "POST") then params else ∅ |}.

Definition test_provider (request : HttpRequest) : CPUCeeposProvider :=
  {| config := test_config;
     request := request;
     get_success_url := VStr "https://front-end-url/success";
     get_notify_url := VStr "https://front-end-url/notify" |}.

Definition payment_provider : CPUCeeposProvider :=
  test_provider (test_request "GET" ∅).

Definition order_with_products (state : OrderState) : Order :=
  {| id := 1;
     order_number := "abc123";
     state := state;
     reservation := {| billing_email_address := VStr "test@example.com";
                       billing_first_name := VStr "Seppo";
                       billing_last_name := VStr "Testi" |};
     log_entries := [] |}.

Definition test_world (state : OrderState) (lines : list OrderLine) : World :=
  {| orders := {[ "abc123" := order_with_products state ]};
     order_lines := lines;
     outbox := [] |}.

(** The parameters of the callback requests of the tests, with their Hash. *)
Definition callback_params (status hash : string) : gmap string string :=
  {[ "Id" := "abc123"; "Status" := status; "Reference" := "123";
     "Hash" := hash ]}.

Definition hash_status_1 : string :=
  "daac0c407cc08b5e679bd2aaa1b39cc3e3e70b6cf5de8b9063cbc66bb9952fd5".
Definition hash_status_0 : string :=
  "d2e9c1286460b6d1cd7d06394de969ab9d12719528f2328b2326469aac57dfcb".
Definition hash_status_77 : string :=
  "f712cd108691bd22d39b321eb93b8320dd484fe7fa9e71daf0ff0c0ac2e1d41e".

(** Collaborators of the tests: every product costs 12.50 for every
    reservation, minor units are hundredths, and the processor is
    unreachable or answers with a fixed reply. *)
Definition test_price (product : Product) (reservation : Reservation) : Decimal :=
  {| coefficient := 1250; exponent := -2 |}.

Definition test_sub_units (price : Decimal) : Z := int_of_scaled price 100.

Definition unreachable_post (url : pyval) (payload : Payload) : post_outcome :=
  Unreachable.

Definition replying_post (status_code : Z) (json : gmap string pyval)
    (url : pyval) (payload : Payload) : post_outcome :=
  Replied status_code json.

Definition test_product (sku : string) (tax : Decimal) : Product :=
  {| sku := sku; name := "Test product"; tax_percentage := tax |}.

Definition test_line (sku : string) (tax : Decimal) (quantity : Z) : OrderLine :=
  {| ol_order := 1; product := test_product sku tax; quantity := quantity |}.

Definition tax_24 : Decimal := {| coefficient := 2400; exponent := -2 |}.
Definition tax_10 : Decimal := {| coefficient := 1000; exponent := -2 |}.

(** * Properties *)

(** ** The model against the repository's test vectors *)

Example sha256_abc :
  SHA256.hexdigest "abc"
  = "ba7816bf8f01cfea414140de5dae2223b00361a396177a9cb410ff61f20015ad".
Proof. vm_compute. reflexivity. Qed.

Example sha256_empty :
  SHA256.hexdigest EmptyString
  = "e3b0c44298fc1c149afbf4c8996fb92427ae41e4649b934ca495991b7852b855".
Proof. vm_compute. reflexivity. Qed.

Example sha256_two_blocks :
  SHA256.hexdigest "abcdbcdecdefdefgefghfghighijhijkijkljklmklmnlmnomnopnopq"
  = "248d6a61d20638b8e5c026930c3e6039a33ce45964ff2167f6ecedd419db06c1".
Proof. vm_compute. reflexivity. Qed.

Example test_calculate_checksum_success :
  fst (calculate_checksum [VStr "test"; VInt 123; VStr "abc123"] (VStr "123"))
  = "b020844c98e7959e95967296c2bb50301287f455ee9fbaafa4b6bc1041f7d5d9".
Proof. vm_compute. reflexivity. Qed.

Example test_handle_initiate_payment_success_checksum :
  validate_ceepos_response test_config
    {[ "Id" := VStr "12345"; "Status" := VInt 2; "Reference" := VStr "10456";
       "Action" := VStr "new payment";
       "PaymentAddress" := VStr "https://www.example.com/checkout";
       "Hash" := VStr "eb4e4b8e30fc1320a3f922bd84e249b518c18b2caa52d9071387685f95b32736" ]}
  = Ok true.
Proof. vm_compute. reflexivity. Qed.

Example test_payload_add_checksum_success :
  payload_add_checksum
    (dict [("ApiVersion", Scalar (VStr "2.1.2"));
           ("Source", Scalar (VStr "examplecom"));
           ("Id", Scalar (VStr "12345"));
           ("Mode", Scalar (VInt 3));
           ("Action", Scalar (VStr "new payment"));
           ("Description", Scalar (VStr "Charlie Customer"));
           ("Products", Items
              [dict [("Code", VStr "1111"); ("Amount", VInt 1); ("Price", VInt 100);
                     ("Description", VStr "Product-specific info")];
               dict [("Code", VStr "1212"); ("Price", VInt 150); ("Taxcode", VStr "10")]]);
           ("Email", Scalar (VStr "charlie.customer@example.com"));
           ("FirstName", Scalar (VStr "Charlie"));
           ("LastName", Scalar (VStr "Customer"));
           ("ReturnAddress", Scalar (VStr "https://www.example.com/return-path"));
           ("NotificationAddress",
            Scalar (VStr "https://www.example.com/notification-path"))])
    (VStr "123")
  !! 12%nat
  = Some ("Hash", Scalar (VStr
      "734a651b873a5410d4894ece8261ccd34901942b49871c7c05c68a2a3a6c3561")).
Proof. vm_compute. reflexivity. Qed.

(** ** The checksum engine: verification of a computed checksum *)

Lemma _validate_payload_unfold config data params :
  _validate_payload config data params
  = (checksum_received ← getitem data "Hash";
     verifyChecksum checksum_received (checksum_values data params)
       (dict_get config RESPA_PAYMENTS_CEEPOS_API_SECRET)).
Proof. reflexivity. Qed.

Lemma hex_digit_ascii n : N.ltb (N_of_ascii (SHA256.hex_digit n)) 128 = true.
Proof.
  unfold SHA256.hex_digit.
  destruct (nth_in_or_default (Z.to_nat (Z.land n 15)) SHA256.hex_chars "0"%char)
    as [Hin | ->]; [|reflexivity].
  revert Hin. generalize (nth (Z.to_nat (Z.land n 15)) SHA256.hex_chars "0"%char).
  intros c Hin. simpl in Hin.
  repeat (destruct Hin as [<- | Hin]; [reflexivity|]). destruct Hin.
Qed.

Lemma hexdigest_is_ascii data : is_ascii (SHA256.hexdigest data) = true.
Proof.
  unfold is_ascii, SHA256.hexdigest.
  rewrite list_ascii_of_string_of_list_ascii.
  apply forallb_forall. intros c Hc.
  apply in_flat_map in Hc as (b & _ & Hb).
  simpl in Hb. destruct Hb as [<- | [<- | []]]; apply hex_digit_ascii.
Qed.

Lemma compare_digest_refl (s : string) :
  is_ascii s = true -> compare_digest (VStr s) (VStr s) = Ok true.
Proof.
  intros Hs. unfold compare_digest. rewrite Hs. simpl.
  destruct (decide (s = s)); congruence.
Qed.

Lemma compare_digest_neq (s t : string) :
  is_ascii s = true -> is_ascii t = true -> s <> t ->
  compare_digest (VStr s) (VStr t) = Ok false.
Proof.
  intros Hs Ht Hne. unfold compare_digest. rewrite Hs, Ht. simpl.
  destruct (decide (s = t)); congruence.
Qed.


Lemma verifyChecksum_own_digest (values : list pyval) (secret : pyval) :
  verifyChecksum (VStr (fst (calculate_checksum values secret))) values secret
  = Ok true.
Proof.
  unfold verifyChecksum.
  rewrite compare_digest_refl; [reflexivity|].
  apply hexdigest_is_ascii.
Qed.

(** C6: for every sequence of values and every secret, verifying the
    checksum that [calculate_checksum] produced over that sequence and that
    secret succeeds; and this verification is what [_validate_payload] runs
    on the received Hash, the values of the listed fields and the configured
    secret. *)
Theorem verifyChecksum_calculate_checksum (values : list pyval) (secret : pyval) :
  verifyChecksum (VStr (fst (calculate_checksum values secret))) values secret
  = Ok true
  /\ forall config data params,
       _validate_payload config data params
       = (checksum_received ← getitem data "Hash";
          verifyChecksum checksum_received (checksum_values data params)
            (dict_get config RESPA_PAYMENTS_CEEPOS_API_SECRET)).
Proof.
  split; [apply verifyChecksum_own_digest | intros; apply _validate_payload_unfold].
Qed.

(** ** The checksum engine: the argument list is extended in place *)

Lemma append_assoc (a b c : string) : (a +:+ b) +:+ c = a +:+ (b +:+ c).
Proof.
  induction a as [|x a IH]; [reflexivity|].
  change (String x ((a +:+ b) +:+ c) = String x (a +:+ b +:+ c)).
  now rewrite IH.
Qed.





(** ** The initiation response interpreter *)

Lemma py_eq_int_true status n m :
  py_eq_int status n = true -> n <> m -> py_eq_int status m = false.
Proof.
  destruct status as [|b|z|s]; simpl; try discriminate.
  - intros H%Z.eqb_eq Hne. apply Z.eqb_neq. congruence.
  - intros H%Z.eqb_eq Hne. apply Z.eqb_neq. congruence.
Qed.

Lemma handle_initiate_payment_response_not_2 self response status :
  response !! "Status" = Some status ->
  py_eq_int status 2 = false ->
  handle_initiate_payment_response self response
  = if py_eq_int status 0 then Raise PaymentCreationFailedError
    else if py_eq_int status 97 then Raise DuplicateOrderError
    else if py_eq_int status 98 then Raise ServiceUnavailableError
    else if py_eq_int status 99 then Raise PayloadValidationError
    else Raise UnknownReturnCodeError.
Proof.
  intros Hs H2. unfold handle_initiate_payment_response, getitem.
  rewrite Hs. unfold_bind. now rewrite H2.
Qed.

(** C4: the status-to-error mapping of the initiation response interpreter.
    A response whose Status equals 0 fails with PaymentCreationFailed, 97
    with DuplicateOrder, 98 with ServiceUnavailable, 99 with
    PayloadValidation, and a Status equal to none of 0, 2, 97, 98, 99 with
    UnknownReturnCode. *)
Theorem handle_initiate_payment_response_status_mapping
    (self : CPUCeeposProvider) (response : gmap string pyval) (status : pyval) :
  response !! "Status" = Some status ->
  (py_eq_int status 0 = true ->
   handle_initiate_payment_response self response = Raise PaymentCreationFailedError)
  /\ (py_eq_int status 97 = true ->
      handle_initiate_payment_response self response = Raise DuplicateOrderError)
  /\ (py_eq_int status 98 = true ->
      handle_initiate_payment_response self response = Raise ServiceUnavailableError)
  /\ (py_eq_int status 99 = true ->
      handle_initiate_payment_response self response = Raise PayloadValidationError)
  /\ (py_eq_int status 0 = false -> py_eq_int status 2 = false ->
      py_eq_int status 97 = false -> py_eq_int status 98 = false ->
      py_eq_int status 99 = false ->
      handle_initiate_payment_response self response = Raise UnknownReturnCodeError).
Proof.
  intros Hs. repeat split.
  - intros H. rewrite (handle_initiate_payment_response_not_2 _ _ _ Hs)
      by (eapply py_eq_int_true; [exact H | lia]).
    now rewrite H.
  - intros H. rewrite (handle_initiate_payment_response_not_2 _ _ _ Hs)
      by (eapply py_eq_int_true; [exact H | lia]).
    rewrite (py_eq_int_true _ _ 0 H) by lia. now rewrite H.
  - intros H. rewrite (handle_initiate_payment_response_not_2 _ _ _ Hs)
      by (eapply py_eq_int_true; [exact H | lia]).
    rewrite (py_eq_int_true _ _ 0 H), (py_eq_int_true _ _ 97 H) by lia.
    now rewrite H.
  - intros H. rewrite (handle_initiate_payment_response_not_2 _ _ _ Hs)
      by (eapply py_eq_int_true; [exact H | lia]).
    rewrite (py_eq_int_true _ _ 0 H), (py_eq_int_true _ _ 97 H),
      (py_eq_int_true _ _ 98 H) by lia.
    now rewrite H.
  - intros H0 H2 H97 H98 H99.
    rewrite (handle_initiate_payment_response_not_2 _ _ _ Hs H2).
    now rewrite H0, H97, H98, H99.
Qed.

Lemma handle_initiate_payment_response_status_mapping_witness :
  handle_initiate_payment_response payment_provider
    {[ "Status" := VInt 97;
       "PaymentAddress" := VStr "https://www.example.com/checkout";
       "Hash" := VStr "47994b075053851153c1a87efa362840f4dd2ce20217f9b5566169677f526f62" ]}
  = Raise DuplicateOrderError
  /\ handle_initiate_payment_response payment_provider
       {[ "Status" := VInt 15;
          "PaymentAddress" := VStr "https://www.example.com/checkout";
          "Hash" := VStr "47994b075053851153c1a87efa362840f4dd2ce20217f9b5566169677f526f62" ]}
     = Raise UnknownReturnCodeError.
Proof.
  split.
  - apply (handle_initiate_payment_response_status_mapping payment_provider _
             (VInt 97)); reflexivity.
  - apply (handle_initiate_payment_response_status_mapping payment_provider _
             (VInt 15)); reflexivity.
Defined.

(** C9, as the code has it: a response whose Status is 1 is not
    success-class for the initiation response interpreter; it fails with
    UnknownReturnCode, like every status outside 0, 2, 97, 98 and 99. *)
Theorem handle_initiate_payment_response_status_1
    (self : CPUCeeposProvider) (response : gmap string pyval) :
  response !! "Status" = Some (VInt 1) ->
  handle_initiate_payment_response self response = Raise UnknownReturnCodeError.
Proof.
  intros Hs.
  now rewrite (handle_initiate_payment_response_not_2 _ _ _ Hs eq_refl).
Qed.

Lemma handle_initiate_payment_response_status_1_witness :
  handle_initiate_payment_response payment_provider
    {[ "Status" := VInt 1;
       "PaymentAddress" := VStr "https://www.example.com/checkout" ]}
  = Raise UnknownReturnCodeError.
Proof.
  apply handle_initiate_payment_response_status_1. reflexivity.
Defined.

(** C9 as stated fails: this response has Status 1 and the interpreter
    fails on it with UnknownReturnCode. *)
Lemma status_1_is_unknown_return_code :
  let response : gmap string pyval :=
    {[ "Status" := VInt 1;
       "PaymentAddress" := VStr "https://www.example.com/checkout" ]} in
  response !! "Status" = Some (VInt 1)
  /\ ~ (handle_initiate_payment_response payment_provider response
        <> Raise UnknownReturnCodeError).
Proof.
  split; [reflexivity|]. intros H. apply H. vm_compute. reflexivity.
Qed.





Example test_handle_initiate_payment_success :
  handle_initiate_payment_response payment_provider
    {[ "Id" := VStr "12345"; "Status" := VInt 2; "Reference" := VStr "10456";
       "Action" := VStr "new payment";
       "PaymentAddress" := VStr "https://www.example.com/checkout";
       "Hash" := VStr "eb4e4b8e30fc1320a3f922bd84e249b518c18b2caa52d9071387685f95b32736" ]}
  = Ok (VStr "https://www.example.com/checkout").
Proof. vm_compute. reflexivity. Qed.

(** ** The callback handlers on the requests of the tests *)

Example test_handle_success_request_success :
  let outcome :=
    handle_success_request
      (test_provider (test_request "GET" (callback_params "1" hash_status_1)))
      (test_world WAITING []) in
  state <$> orders (snd outcome) !! "abc123" = Some CONFIRMED
  /\ exists order, fst outcome = Ok (ui_redirect_success order).
Proof. vm_compute. eauto. Qed.

Example test_handle_success_request_payment_failed :
  let outcome :=
    handle_success_request
      (test_provider (test_request "GET" (callback_params "0" hash_status_0)))
      (test_world WAITING []) in
  state <$> orders (snd outcome) !! "abc123" = Some REJECTED
  /\ exists order, fst outcome = Ok (ui_redirect_failure (Some order)).
Proof. vm_compute. eauto. Qed.

Example test_handle_success_request_incorrect_checksum :
  fst (handle_success_request
         (test_provider (test_request "GET" (callback_params "1"
            "abc124354364554765754643634634643574533hogesho38294wdabwcjoeg894")))
         (test_world WAITING []))
  = Ok (ui_redirect_failure None).
Proof. vm_compute. reflexivity. Qed.

Example handle_notify_request_form_encoded :
  let outcome :=
    handle_notify_request
      (test_provider (test_request "POST" (callback_params "1" hash_status_1)))
      (test_world WAITING []) in
  state <$> orders (snd outcome) !! "abc123" = Some CONFIRMED
  /\ fst outcome = Ok (HttpResponseStatus 200).
Proof. vm_compute. eauto. Qed.

(** ** The notify handler and requests without a Hash *)

Lemma validate_ceepos_request_no_Hash self request :
  (if decide (method request = "POST") then POST request else GET request)
    !! "Hash" = None ->
  validate_ceepos_request self request = Raise KeyError.
Proof.
  intros Hh. unfold validate_ceepos_request, _validate_payload, getitem.
  rewrite lookup_fmap, Hh. reflexivity.
Qed.

(** C3 at a request the code can receive: a POST whose form data is empty
    (the body carried no form-encoded parameters, as when it is JSON).
    [data["Hash"]] raises and the handler returns no acknowledgement. *)
Theorem handle_notify_request_without_Hash (w : World) :
  handle_notify_request (test_provider (test_request "POST" ∅)) w
  = (Raise KeyError, w).
Proof.
  unfold handle_notify_request.
  rewrite validate_ceepos_request_no_Hash; reflexivity.
Qed.

Lemma try_set_state_fst {A : Type} order target note w (a : A) f g :
  (forall order' w', fst (f order' w') = Ok a) ->
  (forall w', fst (g w') = Ok a) ->
  fst (try_set_state order target note w f g) = Ok a.
Proof.
  intros Hf Hg. unfold try_set_state, set_state.
  destruct (decide _); [apply Hf|].
  destruct (state order); auto.
Qed.

(** Whenever the checksum comparison itself does not raise, the notify
    handler acknowledges with 200. *)
Lemma handle_notify_request_acknowledges self w valid :
  validate_ceepos_request self (request self) = Ok valid ->
  fst (handle_notify_request self w) = Ok (HttpResponseStatus 200).
Proof.
  intros Hv. unfold handle_notify_request. rewrite Hv.
  destruct valid; [|reflexivity].
  unfold Order_objects_get.
  destruct (default VNone _) as [| | |number]; try reflexivity.
  destruct (orders w !! number) as [order|]; [|reflexivity].
  repeat (destruct (py_eq_str _ _); [apply try_set_state_fst; reflexivity|]).
  destruct (py_eq_str _ _); reflexivity.
Qed.

(** ** EXPIRED is absorbing for both callback handlers *)

Lemma set_state_Ok order target note order' :
  set_state order target note = Ok order' ->
  order_number order' = order_number order
  /\ (state order = EXPIRED -> state order' = EXPIRED).
Proof.
  unfold set_state. destruct (decide _) as [Heq|Hne].
  - intros [= <-]. auto.
  - destruct (state order) eqn:Hst; try discriminate.
    intros [= <-]. split; [reflexivity | discriminate].
Qed.


Lemma set_state_raises order target note e :
  set_state order target note = Raise e -> e = OrderStateTransitionError.
Proof.
  unfold set_state. destruct (decide _); [discriminate|].
  destruct (state order); congruence.
Qed.












Lemma test_world_keyed st lines : orders_keyed (test_world st lines).
Proof. apply map_Forall_singleton. reflexivity. Qed.


(** ** The payload builder *)

Lemma get_product_taxcode_table product :
  get_product_taxcode product
  = let ppm := int_of_scaled (tax_percentage product) 1000000 in
    if decide (ppm = 24000000) then Ok "24"
    else if decide (ppm = 14000000) then Ok "14"
    else if decide (ppm = 10000000) then Ok "10"
    else if decide (ppm = 0) then Ok "0"
    else Raise ValueError.
Proof.
  unfold get_product_taxcode, taxcode_table. cbv zeta.
  generalize (int_of_scaled (tax_percentage product) 1000000). intros ppm.
  destruct (decide (ppm = 24000000)) as [->|H24]; [reflexivity|].
  rewrite lookup_insert_ne by congruence.
  destruct (decide (ppm = 14000000)) as [->|H14]; [reflexivity|].
  rewrite lookup_insert_ne by congruence.
  destruct (decide (ppm = 10000000)) as [->|H10]; [reflexivity|].
  rewrite lookup_insert_ne by congruence.
  destruct (decide (ppm = 0)) as [->|H0]; [reflexivity|].
  now rewrite lookup_singleton_ne by congruence.
Qed.

Lemma get_product_taxcode_raises product e :
  get_product_taxcode product = Raise e -> e = ValueError.
Proof.
  rewrite get_product_taxcode_table. cbv zeta.
  repeat case_decide; congruence.
Qed.

Lemma setitem_setitem {V : Type} (d : list (string * V)) key v1 v2 :
  setitem (setitem d key v1) key v2 = setitem d key v2.
Proof.
  induction d as [|[k v] d IH]; simpl.
  - now rewrite decide_True.
  - destruct (decide (k = key)) as [->|Hne]; simpl.
    + now rewrite decide_True.
    + rewrite decide_False by assumption. now rewrite IH.
Qed.

Section Builder.

Variable get_price_for_reservation : Product -> Reservation -> Decimal.
Variable price_as_sub_units : Decimal -> Z.
Variable requests_post : pyval -> Payload -> post_outcome.

Local Abbreviation item :=
  (product_item get_price_for_reservation price_as_sub_units).
Local Abbreviation loop :=
  (add_products_loop get_price_for_reservation price_as_sub_units).
Local Abbreviation build :=
  (build_payload get_price_for_reservation price_as_sub_units).
Local Abbreviation initiate :=
  (initiate_payment get_price_for_reservation price_as_sub_units requests_post).


Lemma add_products_loop_Ok reservation order_lines codes items payload :
  Forall2 (fun l c => get_product_taxcode (product l) = Ok c) order_lines codes ->
  order_lines <> [] ->
  loop reservation order_lines items payload
  = Ok (setitem payload "Products"
          (Items (items ++ zip_with (item reservation) order_lines codes))).
Proof.
  intros Hcodes. revert items payload.
  induction Hcodes as [|l c rest codes Hl Hrest IH]; [congruence|].
  intros items payload _. simpl. unfold_bind. rewrite Hl.
  destruct rest as [|l' rest].
  - inversion Hrest; subst. reflexivity.
  - rewrite IH by discriminate. rewrite setitem_setitem.
    now rewrite <- app_assoc.
Qed.



Lemma except_RequestException_hides {A : Type} (r : result A) :
  except_RequestException r <> Raise RequestException.
Proof. destruct r as [a|[]]; discriminate. Qed.

(** C8: when the payload is built and the outbound call fails (connection
    failure or timeout) or the reply has an HTTP error status,
    [initiate_payment] raises ServiceUnavailable and the order table is
    what it was; in no case does RequestException leave
    [initiate_payment] or the order table change. *)
Theorem initiate_payment_unreachable
    (self : CPUCeeposProvider) (order : Order) (w : World) (payload : Payload) :
  build self order w = Ok payload ->
  (requests_post (url_payment_api self) payload = Unreachable
   \/ exists status_code json,
        requests_post (url_payment_api self) payload = Replied status_code json
        /\ 400 <= status_code < 600) ->
  fst (initiate self order w) = Raise ServiceUnavailableError
  /\ orders (snd (initiate self order w)) = orders w
  /\ order_lines (snd (initiate self order w)) = order_lines w
  /\ (forall self' order' w',
        fst (initiate self' order' w') <> Raise RequestException
        /\ orders (snd (initiate self' order' w')) = orders w').
Proof.
  intros Hbuild Hfail.
  assert (Hall : forall self' order' w',
             fst (initiate self' order' w') <> Raise RequestException
             /\ orders (snd (initiate self' order' w')) = orders w').
  { intros self' order' w'. unfold initiate_payment.
    destruct (build_payload _ _ self' order' w') as [p|e] eqn:Hb; simpl.
    - split; [apply except_RequestException_hides | reflexivity].
    - split; [|reflexivity].
      unfold build_payload, payload_add_products in Hb. unfold_bind.
      destruct (add_products_loop _ _ _ _ _ _) as [p|e'] eqn:Hloop;
        [discriminate|].
      injection Hb as <-. clear - Hloop.
      revert Hloop. generalize (@nil (list (string * pyval))).
      generalize (dict
        [("ApiVersion", Scalar (VStr "3.0.0"));
         ("Source", Scalar (dict_get (config self') RESPA_PAYMENTS_CEEPOS_API_KEY));
         ("Id", Scalar (VStr (str (VStr (order_number order')))));
         ("Mode", Scalar (VInt 3)); ("Action", Scalar (VStr "new payment"))]).
      induction (OrderLine_objects_filter w' (id order')) as [|l rest IH];
        intros p0 items; simpl; [discriminate|]. unfold_bind.
      destruct (get_product_taxcode (product l)) as [c|e0] eqn:Hl.
      + apply IH.
      + rewrite (get_product_taxcode_raises _ _ Hl). intros [= <-]. discriminate. }
  repeat split; try apply Hall.
  - unfold initiate_payment. rewrite Hbuild. simpl.
    destruct Hfail as [->|(status_code & json & -> & Hlo & Hhi)]; [reflexivity|].
    unfold raise_for_status. unfold_bind.
    apply Z.leb_le in Hlo. apply Z.ltb_lt in Hhi. now rewrite Hlo, Hhi.
  - unfold initiate_payment. now rewrite Hbuild.
Qed.

Lemma product_item_fields reservation order_line taxcode :
  item reservation order_line taxcode
  = [("Code", VStr (sku (product order_line)));
     ("Amount", VInt (quantity order_line));
     ("Price", VInt (price_as_sub_units
                       (get_price_for_reservation (product order_line) reservation)));
     ("Description", VStr (name (product order_line)));
     ("Taxcode", VStr taxcode)].
Proof. reflexivity. Qed.

(** C1, for an order with at least one order line: the payload holds, in
    this order, ApiVersion, Source, Id (the stringified order number),
    Mode, Action, Products (one entry per order line, each holding Code,
    Amount, Price in minor units, Description, Taxcode in this order),
    Email, FirstName, LastName, ReturnAddress, NotificationAddress and
    Hash; Hash is the checksum over the values of the fields before it in
    that order, every product entry contributing its values in its own
    order. *)
Theorem build_payload_field_order
    (self : CPUCeeposProvider) (order : Order) (w : World)
    (order_lines : list OrderLine) (taxcodes : list string) :
  OrderLine_objects_filter w (id order) = order_lines ->
  order_lines <> [] ->
  Forall2 (fun l c => get_product_taxcode (product l) = Ok c)
    order_lines taxcodes ->
  let entry (l : OrderLine) (c : string) : list (string * pyval) :=
    [("Code", VStr (sku (product l)));
     ("Amount", VInt (quantity l));
     ("Price", VInt (price_as_sub_units
                       (get_price_for_reservation (product l) (reservation order))));
     ("Description", VStr (name (product l)));
     ("Taxcode", VStr c)] in
  let products := zip_with entry order_lines taxcodes in
  let source := dict_get (config self) RESPA_PAYMENTS_CEEPOS_API_KEY in
  let secret := dict_get (config self) RESPA_PAYMENTS_CEEPOS_API_SECRET in
  let email := billing_email_address (reservation order) in
  let first_name := billing_first_name (reservation order) in
  let last_name := billing_last_name (reservation order) in
  build self order w
  = Ok [("ApiVersion", Scalar (VStr "3.0.0"));
        ("Source", Scalar source);
        ("Id", Scalar (VStr (str (VStr (order_number order)))));
        ("Mode", Scalar (VInt 3));
        ("Action", Scalar (VStr "new payment"));
        ("Products", Items products);
        ("Email", Scalar email);
        ("FirstName", Scalar first_name);
        ("LastName", Scalar last_name);
        ("ReturnAddress", Scalar (get_success_url self));
        ("NotificationAddress", Scalar (get_notify_url self));
        ("Hash", Scalar (VStr (fst (calculate_checksum
           ([VStr "3.0.0"; source; VStr (str (VStr (order_number order)));
             VInt 3; VStr "new payment"]
            ++ flat_map (map snd) products
            ++ [email; first_name; last_name;
                get_success_url self; get_notify_url self])
           secret))))].
Proof.
  intros Hlines Hne Hcodes entry products source secret email first_name last_name.
  unfold build_payload, payload_add_products. rewrite Hlines.
  rewrite (add_products_loop_Ok _ _ _ _ _ Hcodes Hne). unfold_bind.
  assert (Hproducts : zip_with (item (reservation order)) order_lines taxcodes
                      = products) by reflexivity.
  rewrite app_nil_l, Hproducts. clearbody products.
  unfold payload_add_checksum, payload_add_return_and_notification_urls,
    payload_add_customer.
  generalize calculate_checksum. intros checksum.
  vm_compute. reflexivity.
Qed.

End Builder.

(** ** The payload builder and the adapter on concrete orders *)


Lemma initiate_payment_unreachable_witness :
  let w := test_world WAITING [test_line "sku-1" tax_24 1; test_line "sku-2" tax_10 2] in
  fst (initiate_payment test_price test_sub_units unreachable_post
         payment_provider (order_with_products WAITING) w)
  = Raise ServiceUnavailableError
  /\ fst (initiate_payment test_price test_sub_units (replying_post 500 ∅)
            payment_provider (order_with_products WAITING) w)
     = Raise ServiceUnavailableError.
Proof.
  intros w. split.
  - eapply initiate_payment_unreachable; [reflexivity|].
    left. reflexivity.
  - eapply initiate_payment_unreachable; [reflexivity|].
    right. exists 500, ∅. split; [reflexivity | lia].
Defined.

Lemma build_payload_field_order_witness :
  let w := test_world WAITING [test_line "sku-1" tax_24 1; test_line "sku-2" tax_10 2] in
  exists payload,
    build_payload test_price test_sub_units payment_provider
      (order_with_products WAITING) w = Ok payload
    /\ keys payload
       = ["ApiVersion"; "Source"; "Id"; "Mode"; "Action"; "Products"; "Email";
          "FirstName"; "LastName"; "ReturnAddress"; "NotificationAddress"; "Hash"].
Proof.
  intros w. eexists. split.
  - apply (build_payload_field_order test_price test_sub_units payment_provider
             (order_with_products WAITING) w
             [test_line "sku-1" tax_24 1; test_line "sku-2" tax_10 2] ["24"; "10"]).
    + reflexivity.
    + discriminate.
    + repeat constructor.
  - reflexivity.
Defined.

(** C1 as stated fails on an order without order lines: the loop body of
    [payload_add_products] never runs, no Products field is inserted, and
    Email follows Action. *)
Lemma build_payload_without_order_lines :
  exists payload,
    build_payload test_price test_sub_units payment_provider
      (order_with_products WAITING) (test_world WAITING []) = Ok payload
    /\ keys payload
       = ["ApiVersion"; "Source"; "Id"; "Mode"; "Action"; "Email";
          "FirstName"; "LastName"; "ReturnAddress"; "NotificationAddress"; "Hash"]
    /\ keys payload
       <> ["ApiVersion"; "Source"; "Id"; "Mode"; "Action"; "Products"; "Email";
           "FirstName"; "LastName"; "ReturnAddress"; "NotificationAddress"; "Hash"].
Proof.
  eexists. split; [reflexivity|].
  split; [vm_compute; reflexivity | vm_compute; intros H; discriminate H].
Qed.

(** * Further properties of the provider *)

(** ** The shape of a checksum *)

Lemma flat_map_length_const {A B : Type} (f : A -> list B) (k : nat) (l : list A) :
  (forall x, List.length (f x) = k) ->
  List.length (flat_map f l) = (k * List.length l)%nat.
Proof.
  intros Hf. induction l as [|x l IH]; simpl; [lia|].
  rewrite List.length_app, Hf, IH. lia.
Qed.

Lemma be_bytes_length n x : List.length (SHA256.be_bytes n x) = n.
Proof. induction n as [|n IH]; simpl; [reflexivity | now rewrite IH]. Qed.

Lemma length_string_of_list_ascii l :
  String.length (string_of_list_ascii l) = List.length l.
Proof. induction l as [|c l IH]; simpl; [reflexivity | now rewrite IH]. Qed.

Lemma hex_digit_lower_hex n : In (SHA256.hex_digit n) SHA256.hex_chars.
Proof.
  unfold SHA256.hex_digit.
  destruct (nth_in_or_default (Z.to_nat (Z.land n 15)) SHA256.hex_chars "0"%char)
    as [Hin | ->]; [exact Hin | left; reflexivity].
Qed.

Lemma hexdigest_length data : String.length (SHA256.hexdigest data) = 64%nat.
Proof.
  unfold SHA256.hexdigest.
  rewrite length_string_of_list_ascii.
  rewrite (flat_map_length_const _ 2) by reflexivity.
  rewrite (flat_map_length_const _ 4) by (intros; apply be_bytes_length).
  reflexivity.
Qed.

Lemma hexdigest_lower_hex data :
  Forall (fun c => In c SHA256.hex_chars) (list_ascii_of_string (SHA256.hexdigest data)).
Proof.
  unfold SHA256.hexdigest. rewrite list_ascii_of_string_of_list_ascii.
  apply List.Forall_forall. intros c Hc.
  apply in_flat_map in Hc as (b & _ & Hb).
  simpl in Hb. destruct Hb as [<- | [<- | []]]; apply hex_digit_lower_hex.
Qed.

(** [calculate_checksum] always returns 64 characters, each one of
    [0123456789abcdef]. *)
Theorem calculate_checksum_digest_shape (values : list pyval) (secret : pyval) :
  let digest := fst (calculate_checksum values secret) in
  String.length digest = 64%nat
  /\ Forall (fun c => In c SHA256.hex_chars) (list_ascii_of_string digest).
Proof.
  split; [apply hexdigest_length | apply hexdigest_lower_hex].
Qed.

(** A received Hash that is ASCII but not 64 characters long is refused by
    the verification, with the verdict False and without an exception. *)
Theorem verifyChecksum_wrong_length
    (received : string) (values : list pyval) (secret : pyval) :
  is_ascii received = true ->
  String.length received <> 64%nat ->
  verifyChecksum (VStr received) values secret = Ok false.
Proof.
  intros Hascii Hlen. unfold verifyChecksum.
  rewrite compare_digest_neq; [reflexivity | assumption | apply hexdigest_is_ascii |].
  intros ->. apply Hlen. apply hexdigest_length.
Qed.

Lemma verifyChecksum_wrong_length_witness :
  verifyChecksum (VStr "12345") [VInt 2; VStr "https://www.example.com/checkout"]
    (VStr "123")
  = Ok false.
Proof.
  apply verifyChecksum_wrong_length; [reflexivity|].
  simpl. lia.
Defined.

(** ** What the checksum does not distinguish *)

Lemma concat_cons (sep x : string) (l : list string) :
  l <> [] -> String.concat sep (x :: l) = x +:+ sep +:+ String.concat sep l.
Proof. destruct l; [congruence | reflexivity]. Qed.

Lemma concat_merge (sep a b : string) (l1 l2 : list string) :
  String.concat sep (l1 ++ (a +:+ sep +:+ b) :: l2)
  = String.concat sep (l1 ++ a :: b :: l2).
Proof.
  induction l1 as [|y l1 IH].
  - simpl app. rewrite (concat_cons sep a) by discriminate.
    destruct l2 as [|z l2]; [reflexivity|].
    rewrite !(concat_cons sep _ (z :: l2)) by discriminate.
    now rewrite !append_assoc.
  - rewrite <- !app_comm_cons.
    rewrite !(concat_cons sep y) by (destruct l1; discriminate).
    now rewrite IH.
Qed.

(** The checksum is taken over the joined string only: a value that
    contains the separator hashes like the two values it splits into, and an
    integer hashes like the string of its decimal digits. *)
Theorem calculate_checksum_joined_string_only
    (before after : list pyval) (secret : pyval) :
  (forall a b : string,
     fst (calculate_checksum (before ++ VStr (a +:+ "&" +:+ b) :: after) secret)
     = fst (calculate_checksum (before ++ VStr a :: VStr b :: after) secret))
  /\ (forall z : Z,
        fst (calculate_checksum (before ++ VInt z :: after) secret)
        = fst (calculate_checksum (before ++ VStr (pretty z) :: after) secret)).
Proof.
  split.
  - intros a b. unfold calculate_checksum. simpl fst. f_equal.
    rewrite <- !app_assoc, !map_app. simpl map.
    apply concat_merge.
  - intros z. unfold calculate_checksum. simpl fst.
    now rewrite <- !app_assoc, !map_app.
Qed.

(** ** Which parameters the validation reads *)

Lemma checksum_values_insert_other (data : gmap string pyval) params key value :
  ~ In key params ->
  checksum_values (<[key := value]> data) params = checksum_values data params.
Proof.
  unfold checksum_values. induction params as [|x params IH]; [reflexivity|].
  intros Hnot. cbn.
  rewrite lookup_insert_ne by (intros ->; apply Hnot; now left).
  rewrite IH by (intros Hin; apply Hnot; now right). reflexivity.
Qed.

(** A parameter that is neither Hash nor one of the checked parameters has
    no influence on the validation: adding it, or changing its value,
    leaves the outcome as it is. *)
Theorem _validate_payload_ignores_other_parameters
    (config data : gmap string pyval) (params : list string)
    (key : string) (value : pyval) :
  key <> "Hash" ->
  ~ In key params ->
  _validate_payload config (<[key := value]> data) params
  = _validate_payload config data params.
Proof.
  intros Hhash Hnot. unfold _validate_payload, getitem.
  rewrite lookup_insert_ne by congruence.
  now rewrite checksum_values_insert_other.
Qed.

Lemma _validate_payload_ignores_other_parameters_witness :
  validate_ceepos_request
    (test_provider (test_request "GET"
       (<["RESPA_UI_RETURN_URL" := "http%3A%2F%2F127.0.0.1%3A8000%2Fv1"]>
          (callback_params "1" hash_status_1))))
    (test_request "GET"
       (<["RESPA_UI_RETURN_URL" := "http%3A%2F%2F127.0.0.1%3A8000%2Fv1"]>
          (callback_params "1" hash_status_1)))
  = validate_ceepos_request
      (test_provider (test_request "GET" (callback_params "1" hash_status_1)))
      (test_request "GET" (callback_params "1" hash_status_1)).
Proof.
  unfold validate_ceepos_request. simpl.
  rewrite fmap_insert.
  apply _validate_payload_ignores_other_parameters; [discriminate|].
  vm_compute. intuition discriminate.
Defined.

Lemma checksum_values_none (data : gmap string pyval) params :
  (forall x, In x params -> data !! x = None) ->
  checksum_values data params = [].
Proof.
  unfold checksum_values. induction params as [|x params IH]; [reflexivity|].
  intros Hnone. cbn. rewrite (Hnone x) by now left.
  apply IH. intros y Hy. apply Hnone. now right.
Qed.

(** Checked parameters that are absent are skipped.  When none of them is
    present, the data validates exactly when its Hash is the SHA-256 digest
    of the secret alone. *)
Theorem _validate_payload_no_checked_parameter
    (config data : gmap string pyval) (params : list string) (received : string) :
  (forall x, In x params -> data !! x = None) ->
  data !! "Hash" = Some (VStr received) ->
  is_ascii received = true ->
  _validate_payload config data params
  = Ok (bool_decide
          (received
           = SHA256.hexdigest (str (dict_get config RESPA_PAYMENTS_CEEPOS_API_SECRET)))).
Proof.
  intros Hnone Hhash Hascii. unfold _validate_payload, getitem.
  rewrite Hhash, (checksum_values_none _ _ Hnone). unfold_bind.
  unfold calculate_checksum, compare_digest. simpl.
  rewrite Hascii, hexdigest_is_ascii. simpl.
  case_bool_decide; destruct (decide _); try contradiction; reflexivity.
Qed.

Lemma _validate_payload_no_checked_parameter_witness :
  _validate_payload test_config
    {[ "Hash" := VStr "a665a45920422f9d417e4867efdc4fb8a04a1f3fff1fa07e998e86f7f7a27ae3" ]}
    REQUEST_CHECKSUM_PARAMS
  = Ok true.
Proof.
  rewrite (_validate_payload_no_checked_parameter test_config _ REQUEST_CHECKSUM_PARAMS
             "a665a45920422f9d417e4867efdc4fb8a04a1f3fff1fa07e998e86f7f7a27ae3").
  - vm_compute. reflexivity.
  - intros x Hx. vm_compute in Hx. intuition (subst; reflexivity).
  - reflexivity.
  - reflexivity.
Defined.

(** ** What the callback handlers change, and when *)

Lemma try_set_state_world {A : Type} order target note w
    (f : Order -> World -> result A * World) (g : World -> result A * World) :
  (forall order' w', snd (f order' w') = w') ->
  (snd (g w) = w
   \/ exists message, snd (g w) = save (create_log_entry order message) w) ->
  snd (try_set_state order target note w f g) = w
  \/ exists order',
       order_number order' = order_number order
       /\ snd (try_set_state order target note w f g) = save order' w.
Proof.
  intros Hf Hg. unfold try_set_state.
  destruct (set_state order target note) as [order'|e] eqn:Hset.
  - right. exists order'. rewrite Hf.
    split; [apply (set_state_Ok _ _ _ _ Hset) | reflexivity].
  - rewrite (set_state_raises _ _ _ _ Hset).
    destruct Hg as [->|[message ->]]; [now left|].
    right. now exists (create_log_entry order message).
Qed.

Ltac use_try_set_state_world Hw :=
  match goal with
  | H : context [try_set_state ?o ?t ?n ?w ?f ?g] |- _ =>
      pose proof (try_set_state_world o t n w f g
                    ltac:(reflexivity)
                    ltac:(first [left; reflexivity | right; eexists; reflexivity]))
        as Hw
  end.

Lemma handle_success_request_world self w :
  snd (handle_success_request self w) = w
  \/ exists number order order',
       GET (request self) !! "Id" = Some number
       /\ orders w !! number = Some order
       /\ order_number order' = order_number order
       /\ snd (handle_success_request self w) = save order' w.
Proof.
  remember (handle_success_request self w) as out eqn:Hout.
  unfold handle_success_request in Hout.
  destruct (validate_ceepos_request _ _) as [[|]|]; try (subst out; now left).
  unfold getitem at 1 in Hout.
  destruct (GET (request self) !! "Id") as [number|] eqn:Hid;
    [|subst out; now left].
  unfold Order_objects_get in Hout.
  destruct (orders w !! number) as [order|] eqn:Hfound; [|subst out; now left].
  destruct (getitem (GET _) "Status") as [status_code|]; [|subst out; now left].
  repeat case_decide.
  - use_try_set_state_world Hw. rewrite <- Hout in Hw.
    destruct Hw as [Hw|(order' & Hnum & Hw)]; [now left|].
    right. exists number, order, order'. auto.
  - use_try_set_state_world Hw. rewrite <- Hout in Hw.
    destruct Hw as [Hw|(order' & Hnum & Hw)]; [now left|].
    right. exists number, order, order'. auto.
  - subst out. right. eexists number, order, _.
    split; [auto|]. split; [auto|]. split; [|reflexivity]. reflexivity.
  - subst out. right. eexists number, order, _.
    split; [auto|]. split; [auto|]. split; [|reflexivity]. reflexivity.
Qed.

Lemma handle_notify_request_world self w :
  snd (handle_notify_request self w) = w
  \/ exists number order order',
       POST (request self) !! "Id" = Some number
       /\ orders w !! number = Some order
       /\ order_number order' = order_number order
       /\ (POST (request self) !! "Status" = Some "1"
           \/ POST (request self) !! "Status" = Some "0")
       /\ snd (handle_notify_request self w) = save order' w.
Proof.
  remember (handle_notify_request self w) as out eqn:Hout.
  unfold handle_notify_request in Hout.
  destruct (validate_ceepos_request _ _) as [[|]|]; try (subst out; now left).
  destruct (POST (request self) !! "Id") as [number|] eqn:Hid;
    [|subst out; now left].
  simpl in Hout.
  destruct (orders w !! number) as [order|] eqn:Hfound; [|subst out; now left].
  destruct (POST (request self) !! "Status") as [status|] eqn:Hstatus;
    [|subst out; now left].
  simpl in Hout. unfold py_eq_str in Hout.
  repeat case_decide; try (subst out; now left).
  - use_try_set_state_world Hw. rewrite <- Hout in Hw.
    destruct Hw as [Hw|(order' & Hnum & Hw)]; [now left|].
    right. exists number, order, order'. subst status. repeat split; auto.
  - use_try_set_state_world Hw. rewrite <- Hout in Hw.
    destruct Hw as [Hw|(order' & Hnum & Hw)]; [now left|].
    right. exists number, order, order'. subst status. repeat split; auto.
Qed.

(** A callback whose checksum does not verify changes nothing: the
    user-return handler answers with the failure redirect without an order,
    the notify handler with 200, and when the comparison itself raises
    (no Hash, a Hash that is not ASCII) both handlers raise the same
    exception; in each case the world is as before. *)
Theorem unverified_callback_changes_nothing (self : CPUCeeposProvider) (w : World) :
  validate_ceepos_request self (request self) <> Ok true ->
  snd (handle_success_request self w) = w
  /\ snd (handle_notify_request self w) = w
  /\ (validate_ceepos_request self (request self) = Ok false ->
      fst (handle_success_request self w) = Ok (ui_redirect_failure None)
      /\ fst (handle_notify_request self w) = Ok (HttpResponseStatus 200))
  /\ (forall e, validate_ceepos_request self (request self) = Raise e ->
      fst (handle_success_request self w) = Raise e
      /\ fst (handle_notify_request self w) = Raise e).
Proof.
  intros Hv. unfold handle_success_request, handle_notify_request.
  destruct (validate_ceepos_request self (request self)) as [[|]|e];
    [congruence| |].
  - split; [reflexivity|]. split; [reflexivity|].
    split; [intros _; split; reflexivity | intros e; discriminate].
  - split; [reflexivity|]. split; [reflexivity|].
    split; [discriminate | intros e' [= <-]; split; reflexivity].
Qed.

Lemma unverified_callback_changes_nothing_witness :
  let self := test_provider (test_request "GET" (callback_params "1"
    "abc124354364554765754643634634643574533hogesho38294wdabwcjoeg894")) in
  snd (handle_success_request self (test_world WAITING [])) = test_world WAITING [].
Proof.
  intros self.
  refine (proj1 (unverified_callback_changes_nothing self (test_world WAITING []) _)).
  vm_compute. intros H. discriminate H.
Defined.

Lemma save_tables order w :
  order_lines (save order w) = order_lines w /\ outbox (save order w) = outbox w.
Proof. split; reflexivity. Qed.

(** A callback touches at most the order its Id parameter names (the query
    parameter for the user-return handler, the form parameter for the
    notify handler): every other order, the order lines and the log of
    outbound requests are as before. *)
Theorem callback_touches_only_the_named_order
    (self : CPUCeeposProvider) (w : World) :
  orders_keyed w ->
  (forall number,
     GET (request self) !! "Id" <> Some number ->
     orders (snd (handle_success_request self w)) !! number = orders w !! number)
  /\ (forall number,
        POST (request self) !! "Id" <> Some number ->
        orders (snd (handle_notify_request self w)) !! number = orders w !! number)
  /\ order_lines (snd (handle_success_request self w)) = order_lines w
  /\ outbox (snd (handle_success_request self w)) = outbox w
  /\ order_lines (snd (handle_notify_request self w)) = order_lines w
  /\ outbox (snd (handle_notify_request self w)) = outbox w.
Proof.
  intros Hkeyed.
  destruct (handle_success_request_world self w)
    as [Hs|(ns & os & os' & Hids & Hfs & Hnums & Hs)];
  destruct (handle_notify_request_world self w)
    as [Hn|(nn & on & on' & Hidn & Hfn & Hnumn & _ & Hn)];
    rewrite Hs, Hn; repeat split; try reflexivity; intros number Hne; simpl;
    try reflexivity.
  all: apply lookup_insert_ne.
  all: first [ rewrite Hnums, (Hkeyed _ _ Hfs) | rewrite Hnumn, (Hkeyed _ _ Hfn) ].
  all: congruence.
Qed.

Lemma callback_touches_only_the_named_order_witness :
  let self := test_provider (test_request "GET" (callback_params "1" hash_status_1)) in
  orders (snd (handle_success_request self (test_world WAITING []))) !! "abc456"
  = orders (test_world WAITING []) !! "abc456".
Proof.
  intros self.
  refine (proj1 (callback_touches_only_the_named_order self (test_world WAITING [])
                   (test_world_keyed WAITING [])) "abc456" _).
  vm_compute. intros H. discriminate H.
Defined.

Lemma handle_notify_request_unchanged (self : CPUCeeposProvider) (w : World) :
  (POST (request self) !! "Id" = None
   \/ (POST (request self) !! "Status" <> Some "1"
       /\ POST (request self) !! "Status" <> Some "0")) ->
  snd (handle_notify_request self w) = w.
Proof.
  intros Hcase.
  destruct (handle_notify_request_world self w)
    as [Hn|(number & order & order' & Hid & _ & _ & Hstatus & _)]; [exact Hn|].
  destruct Hcase as [Hnone|[H1 H0]]; [congruence|].
  destruct Hstatus; contradiction.
Qed.

(** The notify handler changes the world only for a Status of "1" or "0"
    on a request that carries an Id among its form parameters: with any
    other Status, without a Status, or without an Id there (a notification
    sent as GET), the world is as before. *)
Theorem handle_notify_request_changes_only_on_1_or_0
    (self : CPUCeeposProvider) (w : World) :
  (POST (request self) !! "Id" = None
   \/ (POST (request self) !! "Status" <> Some "1"
       /\ POST (request self) !! "Status" <> Some "0")) ->
  snd (handle_notify_request self w) = w.
Proof. apply handle_notify_request_unchanged. Qed.

Lemma handle_notify_request_changes_only_on_1_or_0_witness :
  let self := test_provider (test_request "POST" (callback_params "77" hash_status_77)) in
  snd (handle_notify_request self (test_world WAITING [])) = test_world WAITING [].
Proof.
  intros self. apply handle_notify_request_changes_only_on_1_or_0.
  right. split; vm_compute; intros H; discriminate H.
Defined.

(** ** The state a verified callback leaves the order in *)

Lemma set_state_settled order target note :
  match set_state order target note with
  | Ok order' =>
      state order' = settled (state order) target
      /\ order_number order' = order_number order
      /\ (state order = WAITING \/ state order = target)
  | Raise e =>
      e = OrderStateTransitionError
      /\ settled (state order) target = state order
      /\ state order <> WAITING /\ state order <> target
  end.
Proof.
  unfold set_state, settled.
  destruct (decide (target = state order)) as [->|Hne].
  - destruct (decide _) as [Hw|Hw]; auto.
  - destruct (state order) eqn:Hst; simpl; repeat split; auto; congruence.
Qed.

Lemma lookup_save_state order' w :
  state <$> orders (save order' w) !! order_number order' = Some (state order').
Proof. unfold save. simpl. now rewrite lookup_insert_eq. Qed.

(** The repository's notify tests as one statement: for a verified
    notification that names a stored order, the handler answers 200 and the
    order ends in the state of the tests' tables.  With Status "1" a WAITING
    order becomes CONFIRMED, with Status "0" it becomes REJECTED, and an
    order in any other state, or any other Status, keeps its state. *)
Theorem handle_notify_request_state_table
    (self : CPUCeeposProvider) (w : World) (number status : string) (order : Order) :
  validate_ceepos_request self (request self) = Ok true ->
  POST (request self) !! "Id" = Some number ->
  POST (request self) !! "Status" = Some status ->
  orders w !! number = Some order ->
  order_number order = number ->
  fst (handle_notify_request self w) = Ok (HttpResponseStatus 200)
  /\ state <$> orders (snd (handle_notify_request self w)) !! number
     = Some (if decide (status = "1") then settled (state order) CONFIRMED
             else if decide (status = "0") then settled (state order) REJECTED
             else state order).
Proof.
  intros Hv Hid Hstatus Hfound Hnum.
  split; [now apply handle_notify_request_acknowledges with true|].
  unfold handle_notify_request.
  rewrite Hv, Hid, Hstatus. simpl. rewrite Hfound. unfold py_eq_str.
  assert (Hkeep : state <$> orders w !! number = Some (state order))
    by now rewrite Hfound.
  repeat case_decide; try discriminate; try exact Hkeep; unfold try_set_state.
  - pose proof (set_state_settled order CONFIRMED
        "Code 1 (payment succeeded) in CeePos notify request.") as Hset.
    destruct (set_state _ _ _) as [order'|e].
    + destruct Hset as (Hst & Hn & _). simpl. rewrite <- Hnum, <- Hn, <- Hst.
      apply lookup_save_state.
    + destruct Hset as (-> & -> & _). exact Hkeep.
  - pose proof (set_state_settled order REJECTED
        "Code 0 (payment failed) in CeePos notify request.") as Hset.
    destruct (set_state _ _ _) as [order'|e].
    + destruct Hset as (Hst & Hn & _). simpl. rewrite <- Hnum, <- Hn, <- Hst.
      apply lookup_save_state.
    + destruct Hset as (-> & -> & _). exact Hkeep.
Qed.

Lemma handle_notify_request_state_table_witness :
  let self := test_provider (test_request "POST" (callback_params "0" hash_status_0)) in
  state <$> orders (snd (handle_notify_request self (test_world CONFIRMED [])))
              !! "abc123"
  = Some CONFIRMED.
Proof.
  intros self.
  refine (proj2 (handle_notify_request_state_table self (test_world CONFIRMED [])
                   "abc123" "0" (order_with_products CONFIRMED) _ _ _ _ _));
    vm_compute; reflexivity.
Defined.

Lemma lookup_save order' w :
  orders (save order' w) !! order_number order' = Some order'.
Proof. unfold save. simpl. now rewrite lookup_insert_eq. Qed.

(** A verified user-return callback that names a stored order: the order
    ends in the state of the same table as for the notify handler, and the
    user is redirected to success exactly when the Status is "1" and the
    order is CONFIRMED afterwards (it was WAITING or already CONFIRMED);
    in every other case the redirect is the failure one, carrying the
    order. *)
Theorem handle_success_request_outcome
    (self : CPUCeeposProvider) (w : World) (number status : string) (order : Order) :
  validate_ceepos_request self (request self) = Ok true ->
  GET (request self) !! "Id" = Some number ->
  GET (request self) !! "Status" = Some status ->
  orders w !! number = Some order ->
  order_number order = number ->
  exists order',
    orders (snd (handle_success_request self w)) !! number = Some order'
    /\ state order'
       = (if decide (status = "1") then settled (state order) CONFIRMED
          else if decide (status = "0") then settled (state order) REJECTED
          else state order)
    /\ fst (handle_success_request self w)
       = Ok (if bool_decide (status = "1" /\ state order' = CONFIRMED)
             then ui_redirect_success order'
             else ui_redirect_failure (Some order')).
Proof.
  intros Hv Hid Hstatus Hfound Hnum.
  unfold handle_success_request, getitem, Order_objects_get.
  rewrite Hv, Hid, Hfound, Hstatus. unfold try_set_state.
  assert (Hlog : forall message,
             orders (save (create_log_entry order message) w) !! number
             = Some (create_log_entry order message)).
  { intros message. rewrite <- Hnum. apply (lookup_save (create_log_entry order message)). }
  destruct (decide (status = "1")) as [->|H1].
  - pose proof (set_state_settled order CONFIRMED
        "Code 1 (payment succeeded) in CeePos success request.") as Hset.
    destruct (set_state _ _ _) as [order'|e].
    + destruct Hset as (Hst & Hn & Hfrom). exists order'. simpl.
      split; [rewrite <- Hnum, <- Hn; apply lookup_save|].
      split; [exact Hst|].
      rewrite bool_decide_eq_true_2; [reflexivity|].
      split; [reflexivity|]. rewrite Hst. unfold settled.
      destruct Hfrom as [->| ->]; reflexivity.
    + destruct Hset as (-> & Hkeep & _ & Hne). eexists. simpl.
      split; [apply Hlog|]. split; [now rewrite Hkeep|].
      rewrite bool_decide_eq_false_2; [reflexivity|]. simpl. tauto.
  - destruct (decide (status = "0")) as [->|H0].
    + pose proof (set_state_settled order REJECTED
          "Code 0 (payment failed) in CeePos success request.") as Hset.
      destruct (set_state _ _ _) as [order'|e].
      * destruct Hset as (Hst & Hn & _). exists order'. simpl.
        split; [rewrite <- Hnum, <- Hn; apply lookup_save|].
        split; [exact Hst|].
        reflexivity.
      * destruct Hset as (-> & Hkeep & _). eexists. simpl.
        split; [apply Hlog|]. split; [now rewrite Hkeep|].
        reflexivity.
    + destruct (decide (status = "98")).
      * eexists. simpl. split; [apply Hlog|]. split; [reflexivity|].
        rewrite bool_decide_eq_false_2; [reflexivity|]. tauto.
      * eexists. simpl. split; [apply Hlog|]. split; [reflexivity|].
        rewrite bool_decide_eq_false_2; [reflexivity|]. tauto.
Qed.

Lemma handle_success_request_outcome_witness :
  let self := test_provider (test_request "GET" (callback_params "1" hash_status_1)) in
  exists order',
    orders (snd (handle_success_request self (test_world CONFIRMED []))) !! "abc123"
    = Some order'
    /\ state order' = CONFIRMED
    /\ fst (handle_success_request self (test_world CONFIRMED []))
       = Ok (ui_redirect_success order').
Proof.
  intros self.
  destruct (handle_success_request_outcome self (test_world CONFIRMED [])
              "abc123" "1" (order_with_products CONFIRMED))
    as (order' & Hstored & Hstate & Hredirect); try (vm_compute; reflexivity).
  exists order'. split; [exact Hstored|]. split; [exact Hstate|].
  rewrite Hredirect. rewrite bool_decide_eq_true_2; [reflexivity|].
  split; [reflexivity | exact Hstate].
Defined.

(** The user-return handler never redirects to success unless the request's
    checksum verified and its Status is "1"; the order it then reports is
    CONFIRMED and stored. *)
Theorem success_redirect_only_when_verified_and_confirmed
    (self : CPUCeeposProvider) (w : World) (order' : Order) :
  fst (handle_success_request self w) = Ok (ui_redirect_success order') ->
  validate_ceepos_request self (request self) = Ok true
  /\ GET (request self) !! "Status" = Some "1"
  /\ state order' = CONFIRMED
  /\ snd (handle_success_request self w) = save order' w.
Proof.
  unfold handle_success_request, getitem, Order_objects_get.
  destruct (validate_ceepos_request _ _) as [[|]|]; try discriminate.
  destruct (GET (request self) !! "Id") as [number|]; try discriminate.
  destruct (orders w !! number) as [order|]; try discriminate.
  destruct (GET (request self) !! "Status") as [status|]; try discriminate.
  unfold try_set_state.
  repeat case_decide; try discriminate.
  - subst status.
    pose proof (set_state_settled order CONFIRMED
        "Code 1 (payment succeeded) in CeePos success request.") as Hset.
    destruct (set_state _ _ _) as [o|e].
    + simpl. intros [= <-]. destruct Hset as (Hst & _ & Hfrom).
      repeat split; try reflexivity. rewrite Hst. unfold settled.
      destruct Hfrom as [->| ->]; reflexivity.
    + destruct Hset as (-> & _). discriminate.
  - pose proof (set_state_settled order REJECTED
        "Code 0 (payment failed) in CeePos success request.") as Hset.
    destruct (set_state _ _ _) as [o|e]; [discriminate|].
    destruct Hset as (-> & _). discriminate.
Qed.

Lemma success_redirect_only_when_verified_and_confirmed_witness :
  let self := test_provider (test_request "GET" (callback_params "1" hash_status_1)) in
  let order' :=
    {| id := 1; order_number := "abc123"; state := CONFIRMED;
       reservation := reservation (order_with_products WAITING);
       log_entries := ["Code 1 (payment succeeded) in CeePos success request."] |} in
  state order' = CONFIRMED
  /\ snd (handle_success_request self (test_world WAITING []))
     = save order' (test_world WAITING []).
Proof.
  intros self order'.
  refine (proj2 (proj2 (success_redirect_only_when_verified_and_confirmed self
                          (test_world WAITING []) order' _))).
  vm_compute. reflexivity.
Defined.

(** ** Replayed notifications and malformed user returns *)

Lemma save_save order' w : save order' (save order' w) = save order' w.
Proof. unfold save. simpl. now rewrite insert_insert_eq. Qed.

Lemma set_state_again order target note order' :
  set_state order target note = Ok order' ->
  forall note', set_state order' target note' = Ok order'.
Proof.
  intros Hset note'.
  pose proof (set_state_settled order target note) as H. rewrite Hset in H.
  destruct H as (Hst & _ & Hfrom).
  assert (Htarget : state order' = target).
  { rewrite Hst. unfold settled. destruct Hfrom as [->| ->]; [reflexivity|].
    now destruct (decide _). }
  unfold set_state. now rewrite decide_True by congruence.
Qed.

Lemma try_set_state_replay order target note w number
    (run : World -> result HttpResponse * World) :
  order_number order = number ->
  (forall order' w',
     orders w' !! number = Some order' ->
     run w' = try_set_state order' target note w'
                (fun _ w => (Ok (HttpResponseStatus 200), w))
                (fun w => (Ok (HttpResponseStatus 200), w))) ->
  let once := snd (try_set_state order target note w
                     (fun _ w => (Ok (HttpResponseStatus 200), w))
                     (fun w => (Ok (HttpResponseStatus 200), w))) in
  orders w !! number = Some order ->
  snd (run once) = once.
Proof.
  intros Hnum Hrun once Hfound. unfold once, try_set_state.
  destruct (set_state order target note) as [order'|e] eqn:Hset.
  - simpl. pose proof (set_state_Ok _ _ _ _ Hset) as [Hn _].
    rewrite (Hrun order') by (rewrite <- Hnum, <- Hn; apply lookup_save).
    unfold try_set_state. rewrite (set_state_again _ _ _ _ Hset). simpl.
    apply save_save.
  - rewrite (set_state_raises _ _ _ _ Hset). simpl.
    rewrite (Hrun order w Hfound). unfold try_set_state. rewrite Hset.
    now rewrite (set_state_raises _ _ _ _ Hset).
Qed.

(** A notification delivered twice leaves the world as the first delivery
    left it: the second one finds the order settled and changes nothing. *)
Theorem handle_notify_request_replay (self : CPUCeeposProvider) (w : World) :
  orders_keyed w ->
  snd (handle_notify_request self (snd (handle_notify_request self w)))
  = snd (handle_notify_request self w).
Proof.
  intros Hkeyed.
  destruct (validate_ceepos_request self (request self)) as [[|]|e] eqn:Hv.
  2,3: unfold handle_notify_request; rewrite !Hv; reflexivity.
  destruct (POST (request self) !! "Id") as [number|] eqn:Hid.
  2: { rewrite !(handle_notify_request_unchanged self) by auto.
       reflexivity. }
  destruct (orders w !! number) as [order|] eqn:Hfound.
  2: { assert (H : snd (handle_notify_request self w) = w).
       { unfold handle_notify_request. rewrite Hv, Hid. simpl. now rewrite Hfound. }
       now rewrite !H. }
  assert (Hrun : forall w' order', orders w' !! number = Some order' ->
            handle_notify_request self w'
            = let status_code := default VNone (VStr <$> POST (request self) !! "Status") in
              if py_eq_str status_code "1" then
                try_set_state order' CONFIRMED
                  "Code 1 (payment succeeded) in CeePos notify request." w'
                  (fun _ w => (Ok (HttpResponseStatus 200), w))
                  (fun w => (Ok (HttpResponseStatus 200), w))
              else if py_eq_str status_code "0" then
                try_set_state order' REJECTED
                  "Code 0 (payment failed) in CeePos notify request." w'
                  (fun _ w => (Ok (HttpResponseStatus 200), w))
                  (fun w => (Ok (HttpResponseStatus 200), w))
              else (Ok (HttpResponseStatus 200), w')).
  { intros w' order' Hf. unfold handle_notify_request. rewrite Hv, Hid. simpl.
    rewrite Hf. cbv zeta. now repeat destruct (py_eq_str _ _). }
  rewrite (Hrun w order Hfound). cbv zeta.
  destruct (py_eq_str _ "1") eqn:H1; [|destruct (py_eq_str _ "0") eqn:H0].
  - apply (try_set_state_replay order CONFIRMED _ w number
             (handle_notify_request self));
      try assumption; try exact (Hkeyed _ _ Hfound).
    intros order' w' Hf. rewrite (Hrun w' order' Hf). cbv zeta. now rewrite H1.
  - apply (try_set_state_replay order REJECTED _ w number
             (handle_notify_request self));
      try assumption; try exact (Hkeyed _ _ Hfound).
    intros order' w' Hf. rewrite (Hrun w' order' Hf). cbv zeta. now rewrite H1, H0.
  - simpl. rewrite (Hrun w order Hfound). cbv zeta. now rewrite H1, H0.
Qed.

Lemma handle_notify_request_replay_witness :
  let self := test_provider (test_request "POST" (callback_params "1" hash_status_1)) in
  let w := test_world WAITING [] in
  snd (handle_notify_request self (snd (handle_notify_request self w)))
  = snd (handle_notify_request self w).
Proof.
  intros self w.
  exact (handle_notify_request_replay self w (test_world_keyed WAITING [])).
Defined.

(** Unlike the notify handler, the user-return handler reads Id and Status
    with subscription from the query string: a request that verifies but
    has no Id there (for instance one whose parameters arrived as form
    data of a POST), or names a stored order but has no Status there,
    raises KeyError and changes nothing. *)
Theorem handle_success_request_missing_query_parameter
    (self : CPUCeeposProvider) (w : World) :
  validate_ceepos_request self (request self) = Ok true ->
  (GET (request self) !! "Id" = None ->
   handle_success_request self w = (Raise KeyError, w))
  /\ (forall number order,
        GET (request self) !! "Id" = Some number ->
        orders w !! number = Some order ->
        GET (request self) !! "Status" = None ->
        handle_success_request self w = (Raise KeyError, w)).
Proof.
  intros Hv. unfold handle_success_request, getitem, Order_objects_get.
  rewrite Hv. split.
  - intros ->. reflexivity.
  - intros number order -> -> ->. reflexivity.
Qed.

Lemma handle_success_request_missing_query_parameter_witness :
  handle_success_request
    (test_provider (test_request "POST" (callback_params "1" hash_status_1)))
    (test_world WAITING [])
  = (Raise KeyError, test_world WAITING []).
Proof.
  refine (proj1 (handle_success_request_missing_query_parameter _ _ _) _);
    vm_compute; reflexivity.
Defined.

(** ** Insertion-ordered dictionaries *)

Lemma lookup_key_setitem {V : Type} (d : list (string * V)) key value k :
  lookup_key (setitem d key value) k
  = if decide (key = k) then Some value else lookup_key d k.
Proof.
  induction d as [|[k0 v0] d IH]; simpl.
  - reflexivity.
  - destruct (decide (k0 = key)) as [->|Hne]; simpl.
    + destruct (decide (key = k)); reflexivity.
    + rewrite IH. destruct (decide (k0 = k)) as [->|]; [|reflexivity].
      now rewrite decide_False by congruence.
Qed.

Lemma lookup_key_None {V : Type} (d : list (string * V)) k :
  k ∉ keys d -> lookup_key d k = None.
Proof.
  induction d as [|[k0 v0] d IH]; simpl; [reflexivity|].
  intros [Hne Hnot]%not_elem_of_cons.
  rewrite decide_False by congruence. now apply IH.
Qed.

Lemma setitem_absent {V : Type} (d : list (string * V)) key value :
  key ∉ keys d -> setitem d key value = d ++ [(key, value)].
Proof.
  induction d as [|[k0 v0] d IH]; simpl; [reflexivity|].
  intros [Hne Hnot]%not_elem_of_cons.
  rewrite decide_False by congruence. now rewrite IH.
Qed.

Lemma keys_setitem_present {V : Type} (d : list (string * V)) key value :
  key ∈ keys d -> keys (setitem d key value) = keys d.
Proof.
  induction d as [|[k0 v0] d IH]; simpl; [now intros ?%elem_of_nil|].
  intros [->|Hin]%elem_of_cons.
  - now rewrite decide_True.
  - destruct (decide (k0 = key)) as [->|Hne]; simpl; [reflexivity|].
    now rewrite IH.
Qed.

Lemma keys_setitem {V : Type} (d : list (string * V)) key value :
  keys (setitem d key value)
  = keys d ++ (if decide (key ∈ keys d) then [] else [key]).
Proof.
  destruct (decide (key ∈ keys d)) as [Hin|Hnot].
  - rewrite keys_setitem_present by assumption. now rewrite app_nil_r.
  - rewrite setitem_absent by assumption. unfold keys. now rewrite map_app.
Qed.

Lemma filter_agree {A : Type} (P Q : A -> Prop)
    `{forall x, Decision (P x)} `{forall x, Decision (Q x)} (l : list A) :
  (forall x, x ∈ l -> (P x <-> Q x)) -> filter P l = filter Q l.
Proof.
  induction l as [|x l IH]; [reflexivity|]. intros Hagree.
  rewrite !filter_cons.
  rewrite IH by (intros y Hy; apply Hagree; now apply elem_of_cons; right).
  pose proof (Hagree x ltac:(apply elem_of_cons; now left)) as Hx.
  destruct (decide (P x)) as [HP|HP], (decide (Q x)) as [HQ|HQ];
    try reflexivity; tauto.
Qed.

Lemma update_cons {V : Type} (d : list (string * V)) key value other :
  update d ((key, value) :: other) = update (setitem d key value) other.
Proof. reflexivity. Qed.

Lemma keys_update {V : Type} (d other : list (string * V)) :
  NoDup (keys other) ->
  keys (update d other) = keys d ++ filter (fun k => k ∉ keys d) (keys other).
Proof.
  revert d. induction other as [|[key value] other IH]; intros d Hnodup.
  - simpl. now rewrite app_nil_r.
  - rewrite update_cons. apply NoDup_cons in Hnodup as [Hfresh Hnodup].
    rewrite IH by assumption. rewrite keys_setitem.
    change (keys ((key, value) :: other)) with (key :: keys other).
    rewrite filter_cons.
    destruct (decide (key ∈ keys d)) as [Hin|Hnot].
    + rewrite app_nil_r. rewrite decide_False by tauto. reflexivity.
    + rewrite decide_True by assumption. rewrite <- app_assoc. simpl. do 2 f_equal.
      apply filter_agree. intros x Hx. rewrite elem_of_app, list_elem_of_singleton.
      split; [tauto|]. intros Hd [Hin| ->]; [tauto|]. contradiction.
Qed.

Lemma lookup_key_update {V : Type} (d other : list (string * V)) k :
  NoDup (keys other) ->
  lookup_key (update d other) k
  = match lookup_key other k with
    | Some v => Some v
    | None => lookup_key d k
    end.
Proof.
  revert d. induction other as [|[key value] other IH]; intros d Hnodup.
  - reflexivity.
  - rewrite update_cons. apply NoDup_cons in Hnodup as [Hfresh Hnodup].
    rewrite IH by assumption. rewrite lookup_key_setitem. simpl.
    destruct (decide (key = k)) as [->|Hne]; [|reflexivity].
    now rewrite lookup_key_None.
Qed.

Lemma dict_distinct {V : Type} (entries : list (string * V)) :
  NoDup (keys entries) -> dict entries = entries.
Proof.
  unfold dict. intros Hnodup.
  assert (Hgen : forall d, (forall k, k ∈ keys d -> k ∉ keys entries) ->
                           update d entries = d ++ entries).
  { induction entries as [|[key value] entries IH]; intros d Hdisj.
    - simpl. now rewrite app_nil_r.
    - rewrite update_cons. apply NoDup_cons in Hnodup as [Hfresh Hnodup].
      rewrite setitem_absent
        by (intros Hin; apply (Hdisj key Hin); apply elem_of_cons; now left).
      rewrite IH; [now rewrite <- app_assoc|assumption|].
      intros k. unfold keys. rewrite map_app, elem_of_app. simpl.
      rewrite list_elem_of_singleton.
      intros [Hin| ->]; [|assumption].
      intros Hk. apply (Hdisj k Hin). apply elem_of_cons. now right. }
  apply (Hgen []). intros k Hk. now apply elem_of_nil in Hk.
Qed.

(** ** The payload helpers *)

Ltac nodup_keys :=
  repeat (apply NoDup_cons; split;
          [rewrite ?elem_of_cons, ?elem_of_nil; intuition discriminate|]);
  apply NoDup_nil; exact I.

(** [payload_add_customer] sets Email, FirstName and LastName to the billing
    fields of the order's reservation, whatever the payload held under those
    names, and leaves every other field as it is.  Fields already in the
    payload keep their position; the new ones follow in the order Email,
    FirstName, LastName; and no field name occurs twice afterwards if none
    did before. *)
Theorem payload_add_customer_fields (payload : Payload) (order : Order) :
  let fields :=
    [("Email", Scalar (billing_email_address (reservation order)));
     ("FirstName", Scalar (billing_first_name (reservation order)));
     ("LastName", Scalar (billing_last_name (reservation order)))] in
  let payload' := payload_add_customer payload order in
  (forall k, lookup_key payload' k
             = match lookup_key fields k with
               | Some v => Some v
               | None => lookup_key payload k
               end)
  /\ keys payload'
     = keys payload ++ filter (fun k => k ∉ keys payload) (keys fields)
  /\ (NoDup (keys payload) -> NoDup (keys payload')).
Proof.
  intros fields payload'.
  assert (Hnodup : NoDup (keys fields)) by (unfold fields, keys; simpl; nodup_keys).
  assert (Heq : payload' = update payload fields).
  { unfold payload', payload_add_customer. fold fields.
    now rewrite (dict_distinct fields Hnodup). }
  rewrite Heq. split; [intros k; now apply lookup_key_update|].
  rewrite (keys_update _ _ Hnodup). split; [reflexivity|].
  intros Hpayload. apply NoDup_app. split; [assumption|].
  split; [|now apply NoDup_filter].
  intros k Hk [Hnot _]%list_elem_of_filter. contradiction.
Qed.

Lemma payload_add_customer_fields_witness :
  NoDup (keys (payload_add_customer [] (order_with_products WAITING))).
Proof.
  apply (payload_add_customer_fields [] (order_with_products WAITING)).
  apply NoDup_nil. exact I.
Defined.

(** [payload_add_return_and_notification_urls] sets ReturnAddress and
    NotificationAddress to the provider's two URLs and leaves every other
    field as it is; fields already present keep their position, the new
    ones follow in that order. *)
Theorem payload_add_return_and_notification_urls_fields
    (self : CPUCeeposProvider) (payload : Payload) :
  let fields :=
    [("ReturnAddress", Scalar (get_success_url self));
     ("NotificationAddress", Scalar (get_notify_url self))] in
  let payload' := payload_add_return_and_notification_urls self payload in
  (forall k, lookup_key payload' k
             = match lookup_key fields k with
               | Some v => Some v
               | None => lookup_key payload k
               end)
  /\ keys payload'
     = keys payload ++ filter (fun k => k ∉ keys payload) (keys fields).
Proof.
  intros fields payload'.
  assert (Hnodup : NoDup (keys fields)) by (unfold fields, keys; simpl; nodup_keys).
  assert (Heq : payload' = update payload fields).
  { unfold payload', payload_add_return_and_notification_urls. fold fields.
    now rewrite (dict_distinct fields Hnodup). }
  rewrite Heq. split; [intros k; now apply lookup_key_update|].
  apply (keys_update _ _ Hnodup).
Qed.

(** [payload_add_checksum] stores under Hash the checksum over the flattened
    values of the whole payload it is given, including a Hash the payload
    already had, which it replaces in place; a payload without a Hash gets
    it as the last field.  No other field changes. *)
Theorem payload_add_checksum_fields (payload : Payload) (secret : pyval) :
  let hash :=
    Scalar (VStr (fst (calculate_checksum (checksum_calc_values payload) secret))) in
  let payload' := payload_add_checksum payload secret in
  (forall k, lookup_key payload' k
             = if decide ("Hash" = k) then Some hash else lookup_key payload k)
  /\ keys payload'
     = keys payload ++ (if decide ("Hash" ∈ keys payload) then [] else ["Hash"]).
Proof.
  intros hash payload'. unfold payload', payload_add_checksum. fold hash.
  split; [intros k; apply lookup_key_setitem | apply keys_setitem].
Qed.

Lemma checksum_calc_values_app (p q : Payload) :
  checksum_calc_values (p ++ q) = checksum_calc_values p ++ checksum_calc_values q.
Proof. unfold checksum_calc_values. apply flat_map_app. Qed.

Lemma setitem_last {V : Type} (d : list (string * V)) key v1 v2 :
  key ∉ keys d -> setitem (d ++ [(key, v1)]) key v2 = d ++ [(key, v2)].
Proof.
  induction d as [|[k v] d IH]; simpl.
  - intros _. now rewrite decide_True.
  - intros [Hne Hnot]%not_elem_of_cons.
    rewrite decide_False by congruence. now rewrite IH.
Qed.

(** Signing twice does not give the first signature again: on a payload
    without a Hash, the second [payload_add_checksum] hashes the first Hash
    as one more value, after all the others. *)
Theorem payload_add_checksum_twice (payload : Payload) (secret : pyval) :
  "Hash" ∉ keys payload ->
  let first := fst (calculate_checksum (checksum_calc_values payload) secret) in
  payload_add_checksum (payload_add_checksum payload secret) secret
  = payload
    ++ [("Hash", Scalar (VStr (fst (calculate_checksum
           (checksum_calc_values payload ++ [VStr first]) secret))))].
Proof.
  intros Hnot first. unfold payload_add_checksum at 2. fold first.
  rewrite (setitem_absent payload) by assumption.
  unfold payload_add_checksum. rewrite checksum_calc_values_app.
  now apply setitem_last.
Qed.

Lemma payload_add_checksum_twice_witness :
  payload_add_checksum
    (payload_add_checksum [("Id", Scalar (VStr "12345"))] (VStr "123")) (VStr "123")
  = [("Id", Scalar (VStr "12345"));
     ("Hash", Scalar (VStr (fst (calculate_checksum
        [VStr "12345";
         VStr (fst (calculate_checksum [VStr "12345"] (VStr "123")))]
        (VStr "123")))))].
Proof.
  apply (payload_add_checksum_twice [("Id", Scalar (VStr "12345"))] (VStr "123")).
  unfold keys. simpl. rewrite list_elem_of_singleton. discriminate.
Defined.

(** ** The product list and the adapter as a whole *)

Section Adapter.

Variable get_price_for_reservation : Product -> Reservation -> Decimal.
Variable price_as_sub_units : Decimal -> Z.
Variable requests_post : pyval -> Payload -> post_outcome.

Local Abbreviation item :=
  (product_item get_price_for_reservation price_as_sub_units).
Local Abbreviation loop :=
  (add_products_loop get_price_for_reservation price_as_sub_units).
Local Abbreviation add_products :=
  (payload_add_products get_price_for_reservation price_as_sub_units).
Local Abbreviation build :=
  (build_payload get_price_for_reservation price_as_sub_units).
Local Abbreviation initiate :=
  (initiate_payment get_price_for_reservation price_as_sub_units requests_post).

Lemma add_products_loop_result reservation order_lines items payload :
  match loop reservation order_lines items payload with
  | Ok payload' =>
      Forall (fun l => exists c, get_product_taxcode (product l) = Ok c) order_lines
      /\ exists entries,
           List.length entries = List.length order_lines
           /\ Forall (fun entry =>
                        keys entry
                        = ["Code"; "Amount"; "Price"; "Description"; "Taxcode"])
                entries
           /\ payload' = match order_lines with
                         | [] => payload
                         | _ :: _ =>
                             setitem payload "Products" (Items (items ++ entries))
                         end
  | Raise e =>
      e = ValueError
      /\ Exists (fun l => get_product_taxcode (product l) = Raise ValueError)
           order_lines
  end.
Proof.
  revert items payload.
  induction order_lines as [|l rest IH]; intros items payload.
  - simpl. split; [constructor|]. exists []. repeat split. constructor.
  - simpl. unfold_bind.
    destruct (get_product_taxcode (product l)) as [c|e] eqn:Hl.
    + specialize (IH (items ++ [item reservation l c])
                     (setitem payload "Products"
                        (Items (items ++ [item reservation l c])))).
      destruct (loop _ rest _ _) as [payload'|e].
      * destruct IH as (Hall & entries & Hlen & Hkeys & Hpayload).
        split; [constructor; eauto|].
        exists (item reservation l c :: entries).
        split; [simpl; now rewrite Hlen|].
        split; [constructor; [reflexivity | assumption]|].
        rewrite Hpayload. destruct rest as [|l' rest].
        -- destruct entries; [reflexivity | discriminate].
        -- rewrite setitem_setitem. now rewrite <- app_assoc.
      * destruct IH as (-> & Hex). split; [reflexivity|]. now apply Exists_cons_tl.
    + pose proof (get_product_taxcode_raises _ _ Hl) as ->.
      split; [reflexivity|]. now apply Exists_cons_hd.
Qed.

(** [payload_add_products] succeeds exactly when every order line of the
    order has a mapped tax rate, and otherwise raises ValueError.  On
    success an order without lines leaves the payload as it is, and an
    order with lines puts under Products one entry per line, each with the
    fields Code, Amount, Price, Description, Taxcode in that order,
    replacing in place a Products field the payload already had. *)
Theorem payload_add_products_result (payload : Payload) (order : Order) (w : World) :
  let order_lines := OrderLine_objects_filter w (id order) in
  match add_products payload order w with
  | Ok payload' =>
      Forall (fun l => exists c, get_product_taxcode (product l) = Ok c) order_lines
      /\ exists entries,
           List.length entries = List.length order_lines
           /\ Forall (fun entry =>
                        keys entry
                        = ["Code"; "Amount"; "Price"; "Description"; "Taxcode"])
                entries
           /\ payload' = match order_lines with
                         | [] => payload
                         | _ :: _ => setitem payload "Products" (Items entries)
                         end
  | Raise e =>
      e = ValueError
      /\ Exists (fun l => get_product_taxcode (product l) = Raise ValueError)
           order_lines
  end.
Proof.
  intros order_lines. unfold payload_add_products. fold order_lines.
  apply (add_products_loop_result (reservation order) order_lines [] payload).
Qed.

Lemma build_payload_body self order w payload :
  build self order w = Ok payload ->
  exists body,
    ("Hash" ∉ keys body)
    /\ payload = payload_add_checksum body
                   (dict_get (config self) RESPA_PAYMENTS_CEEPOS_API_SECRET).
Proof.
  unfold build_payload. unfold_bind.
  pose proof (payload_add_products_result
    (dict
       [("ApiVersion", Scalar (VStr "3.0.0"));
        ("Source", Scalar (dict_get (config self) RESPA_PAYMENTS_CEEPOS_API_KEY));
        ("Id", Scalar (VStr (str (VStr (order_number order)))));
        ("Mode", Scalar (VInt 3)); ("Action", Scalar (VStr "new payment"))])
    order w) as Hproducts.
  cbv zeta in Hproducts.
  destruct (add_products _ order w) as [p1|e]; [|discriminate].
  destruct Hproducts as (_ & entries & _ & _ & Hp1).
  intros [= <-]. eexists. split; [|reflexivity].
  rewrite Hp1. clear.
  generalize (dict_get (config self) RESPA_PAYMENTS_CEEPOS_API_KEY).
  generalize (get_success_url self) (get_notify_url self).
  generalize (billing_email_address (reservation order))
    (billing_first_name (reservation order)) (billing_last_name (reservation order)).
  generalize (str (VStr (order_number order))).
  intros number email first_name last_name success notify source.
  destruct (OrderLine_objects_filter w (id order));
    match goal with
    | |- _ ∉ ?l =>
        let l' := eval vm_compute in l in
        replace l with l' by (vm_compute; reflexivity)
    end;
    rewrite !elem_of_cons, elem_of_nil; intuition discriminate.
Qed.

(** What [initiate_payment] sends can be verified by its receiver: a built
    payload is a body without a Hash followed by the Hash field, and
    verifying that Hash against the flattened values of the body with the
    configured secret succeeds. *)
Theorem build_payload_verifies
    (self : CPUCeeposProvider) (order : Order) (w : World) (payload : Payload) :
  build self order w = Ok payload ->
  exists (body : Payload) (hash : string),
    payload = body ++ [("Hash", Scalar (VStr hash))]
    /\ ("Hash" ∉ keys body)
    /\ verifyChecksum (VStr hash) (checksum_calc_values body)
         (dict_get (config self) RESPA_PAYMENTS_CEEPOS_API_SECRET)
       = Ok true.
Proof.
  intros Hbuild. apply build_payload_body in Hbuild as (body & Hnot & ->).
  exists body. eexists. split; [now apply setitem_absent|].
  split; [assumption | apply verifyChecksum_own_digest].
Qed.

Lemma handle_initiate_payment_response_no_RequestException self response :
  handle_initiate_payment_response self response <> Raise RequestException.
Proof.
  unfold handle_initiate_payment_response, getitem. unfold_bind.
  destruct (response !! "Status") as [status|]; [|discriminate].
  destruct (py_eq_int status 2).
  - destruct (validate_ceepos_response _ _) as [[|]|e] eqn:Hv; try discriminate.
    + simpl. destruct (response !! "PaymentAddress"); discriminate.
    + unfold validate_ceepos_response, _validate_payload, getitem in Hv.
      unfold_bind. destruct (response !! "Hash") as [h|]; [|congruence].
      unfold compare_digest in Hv.
      destruct h; try congruence.
      destruct (_ && _); [destruct (decide _); discriminate | congruence].
  - repeat destruct (py_eq_int _ _); discriminate.
Qed.

(** When the payload is built and the processor replies with a status code
    outside 400..599, [initiate_payment] returns exactly what
    [handle_initiate_payment_response] makes of the body: the payment
    address, or the interpreter's error unchanged. *)
Theorem initiate_payment_passes_response_through
    (self : CPUCeeposProvider) (order : Order) (w : World) (payload : Payload)
    (status_code : Z) (json : gmap string pyval) :
  build self order w = Ok payload ->
  requests_post (url_payment_api self) payload = Replied status_code json ->
  ~ (400 <= status_code < 600) ->
  initiate self order w
  = (handle_initiate_payment_response self json,
     send (url_payment_api self) payload w).
Proof.
  intros Hbuild Hpost Hstatus. unfold initiate_payment.
  rewrite Hbuild, Hpost. f_equal.
  unfold raise_for_status. unfold_bind.
  assert (Hok : (400 <=? status_code)%Z && (status_code <? 600)%Z = false).
  { apply andb_false_iff.
    destruct (Z.leb_spec 400 status_code); [|now left].
    destruct (Z.ltb_spec status_code 600); [lia | now right]. }
  rewrite Hok.
  pose proof (handle_initiate_payment_response_no_RequestException self json) as Hno.
  destruct (handle_initiate_payment_response self json) as [a|[]];
    try reflexivity. contradiction.
Qed.

(** [initiate_payment] sends exactly one request, carrying the built
    payload to the configured URL, when every order line of the order has a
    mapped tax rate, and none otherwise; it never changes the orders or the
    order lines. *)
Theorem initiate_payment_sends_at_most_once
    (self : CPUCeeposProvider) (order : Order) (w : World) :
  let lines := OrderLine_objects_filter w (id order) in
  let after := snd (initiate self order w) in
  orders after = orders w
  /\ order_lines after = order_lines w
  /\ match build self order w with
     | Ok payload =>
         Forall (fun l => exists c, get_product_taxcode (product l) = Ok c)
           lines
         /\ outbox after = outbox w ++ [(url_payment_api self, payload)]
     | Raise e =>
         Exists (fun l => get_product_taxcode (product l) = Raise ValueError)
           lines
         /\ outbox after = outbox w
     end.
Proof.
  intros lines after. unfold after, initiate_payment.
  pose proof (payload_add_products_result
    (dict
       [("ApiVersion", Scalar (VStr "3.0.0"));
        ("Source", Scalar (dict_get (config self) RESPA_PAYMENTS_CEEPOS_API_KEY));
        ("Id", Scalar (VStr (str (VStr (order_number order)))));
        ("Mode", Scalar (VInt 3)); ("Action", Scalar (VStr "new payment"))])
    order w) as Hproducts.
  cbv zeta in Hproducts. fold lines in Hproducts.
  unfold build_payload. unfold_bind.
  destruct (add_products _ order w) as [p1|e].
  - destruct Hproducts as (Hall & _). repeat split; try reflexivity. exact Hall.
  - destruct Hproducts as (-> & Hex). repeat split; try reflexivity. exact Hex.
Qed.

End Adapter.

Lemma build_payload_verifies_witness :
  let w := test_world WAITING [test_line "sku-1" tax_24 1; test_line "sku-2" tax_10 2] in
  exists (body : Payload) (hash : string),
    build_payload test_price test_sub_units payment_provider
      (order_with_products WAITING) w
    = Ok (body ++ [("Hash", Scalar (VStr hash))])
    /\ verifyChecksum (VStr hash) (checksum_calc_values body)
         (dict_get (config payment_provider) RESPA_PAYMENTS_CEEPOS_API_SECRET)
       = Ok true.
Proof.
  intros w.
  assert (H : exists payload,
             build_payload test_price test_sub_units payment_provider
               (order_with_products WAITING) w = Ok payload)
    by (eexists; reflexivity).
  destruct H as [payload H].
  destruct (build_payload_verifies test_price test_sub_units payment_provider
              (order_with_products WAITING) w payload H)
    as (body & hash & Hp & _ & Hv).
  exists body, hash. split; [now rewrite H, Hp | exact Hv].
Defined.

Lemma initiate_payment_passes_response_through_witness :
  let w := test_world WAITING [test_line "sku-1" tax_24 1; test_line "sku-2" tax_10 2] in
  let json : gmap string pyval :=
    {[ "Status" := VInt 2;
       "PaymentAddress" := VStr "https://ceepos-payment-url";
       "Hash" := VStr "483e298570c959e5b4af637c63cc216752c6f7ee1ee5149548fde4c4c977e89c" ]} in
  fst (initiate_payment test_price test_sub_units (replying_post 200 json)
         payment_provider (order_with_products WAITING) w)
  = Ok (VStr "https://ceepos-payment-url").
Proof.
  intros w json.
  erewrite initiate_payment_passes_response_through;
    [ | reflexivity | reflexivity | lia ].
  vm_compute. reflexivity.
Defined.

(** ** Tax rates as decimals *)

Lemma int_of_scaled_rescale (c e k m : Z) :
  0 <= k ->
  int_of_scaled {| coefficient := c * 10 ^ k; exponent := e - k |} m
  = int_of_scaled {| coefficient := c; exponent := e |} m.
Proof.
  intros Hk. unfold int_of_scaled. simpl.
  assert (Hpos : forall n, 0 <= n -> 10 ^ n <> 0)
    by (intros n Hn; apply Z.pow_nonzero; lia).
  destruct (Z.leb_spec 0 (e - k)) as [Hek|Hek];
    destruct (Z.leb_spec 0 e) as [He|He]; try lia.
  - replace e with (k + (e - k)) at 2 by lia.
    rewrite Z.pow_add_r by lia. ring.
  - replace (c * 10 ^ k * m) with ((c * m * 10 ^ e) * 10 ^ (- (e - k))).
    + apply Z.quot_mul. apply Hpos. lia.
    + replace k with (e + (- (e - k))) at 2 by lia.
      rewrite Z.pow_add_r by lia. ring.
  - replace (- (e - k)) with (- e + k) by lia.
    rewrite Z.pow_add_r by lia.
    replace (c * 10 ^ k * m) with ((c * m) * 10 ^ k) by ring.
    apply Z.quot_mul_cancel_r; apply Hpos; lia.
Qed.

(** The tax code does not depend on how the rate is written: trailing
    zeros of the decimal (24, 24.0, 24.00) make no difference. *)
Theorem get_product_taxcode_trailing_zeros (p q : Product) (c e k : Z) :
  0 <= k ->
  tax_percentage p = {| coefficient := c * 10 ^ k; exponent := e - k |} ->
  tax_percentage q = {| coefficient := c; exponent := e |} ->
  get_product_taxcode p = get_product_taxcode q.
Proof.
  intros Hk Hp Hq. unfold get_product_taxcode.
  now rewrite Hp, Hq, int_of_scaled_rescale.
Qed.

Lemma get_product_taxcode_trailing_zeros_witness :
  get_product_taxcode (test_product "sku-1" tax_24)
  = get_product_taxcode
      (test_product "sku-1" {| coefficient := 24; exponent := 0 |}).
Proof.
  apply (get_product_taxcode_trailing_zeros _ _ 24 0 2); [lia | reflexivity..].
Defined.




(** ** Missing keys in the initiation response *)

(** The initiation response interpreter reads Status, Hash and
    PaymentAddress with subscription: a response without Status raises
    KeyError; one with Status 2 raises KeyError without a Hash, TypeError
    with a Hash that is not a string, and KeyError when the Hash verifies
    but there is no PaymentAddress. *)
Theorem handle_initiate_payment_response_missing_keys
    (self : CPUCeeposProvider) (response : gmap string pyval) :
  (response !! "Status" = None ->
   handle_initiate_payment_response self response = Raise KeyError)
  /\ (forall status,
        response !! "Status" = Some status -> py_eq_int status 2 = true ->
        (response !! "Hash" = None ->
         handle_initiate_payment_response self response = Raise KeyError)
        /\ (forall hash, response !! "Hash" = Some hash ->
            (forall s, hash <> VStr s) ->
            handle_initiate_payment_response self response = Raise TypeError)
        /\ (validate_ceepos_response (config self) response = Ok true ->
            response !! "PaymentAddress" = None ->
            handle_initiate_payment_response self response = Raise KeyError)).
Proof.
  unfold handle_initiate_payment_response, getitem. unfold_bind. split.
  - intros ->. reflexivity.
  - intros status -> ->. split; [|split].
    + intros Hh. unfold validate_ceepos_response, _validate_payload, getitem.
      now rewrite Hh.
    + intros hash Hh Hnot.
      unfold validate_ceepos_response, _validate_payload, getitem.
      rewrite Hh. unfold_bind. unfold compare_digest.
      destruct hash as [| | |s]; try reflexivity. now destruct (Hnot s).
    + intros -> ->. reflexivity.
Qed.

Lemma handle_initiate_payment_response_missing_keys_witness :
  handle_initiate_payment_response payment_provider
    {[ "PaymentAddress" := VStr "https://www.example.com/checkout" ]}
  = Raise KeyError
  /\ handle_initiate_payment_response payment_provider
       {[ "Status" := VInt 2; "Hash" := VInt 12345 ]}
     = Raise TypeError.
Proof.
  split.
  - apply handle_initiate_payment_response_missing_keys. reflexivity.
  - refine (proj1 (proj2 (proj2 (handle_initiate_payment_response_missing_keys
                                   payment_provider _) (VInt 2) _ _))
              (VInt 12345) _ _); try reflexivity.
    intros s H. discriminate H.
Defined.
